(** * fusionbrain-api-ts: response entities, error taxonomy and client

    A shallow embedding of the TypeScript sources
    [src/response_entities/Task.ts], [ModelInfo], [StyleInfo],
    [FusionBrainError] and the [FusionBrain] client class, followed by the
    properties the specification states about them.

    Values handed over by the HTTP layer are decoded JSON; JavaScript
    numbers are IEEE 754 doubles and are kept as primitive floats; parsed
    objects are finite maps from property names to values. *)

From Stdlib Require Import ZArith Ascii Floats.PrimFloat.
From stdpp Require Import gmap strings list.

Local Open Scope string_scope.

(** ** Decoded JSON *)

#[warnings="-register-all"]
Inductive json : Type :=
| JNull
| JBool (b : bool)
| JNumber (n : float)
| JString (s : string)
| JArray (items : list json)
| JObject (props : gmap string json).

(** The line feed of a template literal that spans several lines. *)
Definition LF : string := String "010"%char "".

(** [typeof v]; [None] is [undefined]. *)
Definition typeof (v : option json) : string :=
  match v with
  | None => "undefined"
  | Some (JBool _) => "boolean"
  | Some (JNumber _) => "number"
  | Some (JString _) => "string"
  | Some JNull | Some (JArray _) | Some (JObject _) => "object"
  end.

(** The property names the sources test with [in] or read with a dot.
    None of them is an array index, ["length"], or a name that
    [Object.prototype] or [Array.prototype] provides, so own-property
    lookup decides them on parsed objects and no array has them. *)
Inductive prop_name : Type :=
| K_uuid | K_status | K_images | K_errorDescription | K_censored
| K_generationTime
| K_id | K_name | K_version | K_type | K_number
| K_title | K_titleEn | K_image
| K_model_status.

Definition key (p : prop_name) : string :=
  match p with
  | K_uuid => "uuid" | K_status => "status" | K_images => "images"
  | K_errorDescription => "errorDescription" | K_censored => "censored"
  | K_generationTime => "generationTime"
  | K_id => "id" | K_name => "name" | K_version => "version"
  | K_type => "type" | K_number => "number"
  | K_title => "title" | K_titleEn => "titleEn" | K_image => "image"
  | K_model_status => "model_status"
  end.

(** [jsonObject.p]. Every read in the sources follows a successful [in]
    on the same operand, hence happens on an object or an array. *)
Definition get (p : prop_name) (j : json) : option json :=
  match j with
  | JObject props => props !! key p
  | _ => None
  end.

(** The string held by a value whose [typeof] is ["string"]. *)
Definition string_of (v : option json) : string :=
  match v with
  | Some (JString s) => s
  | _ => ""
  end.

(** [`${x}`] for a string that may be [undefined]. *)
Definition interpolate (x : option string) : string :=
  default "undefined" x.

(** ** Errors of the library and of its HTTP collaborator *)

Record AxiosResponse : Type := {
  resp_status : Z;
  resp_data : json
}.

(** An [AxiosError]: [response] is absent when no reply was received. *)
Record AxiosError : Type := {
  ax_message : string;
  ax_response : option AxiosResponse;
  ax_stack : option string
}.

(** [err.response?.status] *)
Definition response_status (err : AxiosError) : option Z :=
  resp_status <$> ax_response err.

(** [err.response?.data] *)
Definition response_data (err : AxiosError) : option json :=
  resp_data <$> ax_response err.

(** What the JavaScript engine supplies: [JSON.stringify] on decoded JSON
    and the stack text recorded for a freshly constructed [Error] with a
    given message. *)
Class Runtime : Type := {
  JSON_stringify : json -> string;
  Error_stack : string -> string
}.

Inductive FusionBrainErrorCode : Type :=
| EXPIRED
| UNAUTHORIZED
| LONG_PROMPT_OR_BAD_REQUEST
| MODEL_NOT_READY
| UNSUPPORTED_MEDIA
| UNEXPECTED.

Module FusionBrainError.

Record t : Type := {
  message : string;
  code : FusionBrainErrorCode;
  body : option string;
  stack : string
}.

Section Factories.
Context `{Runtime}.

(** [new FusionBrainError(message, code, body)] *)
Definition new (message : string) (code : FusionBrainErrorCode)
    (body : option string) : t :=
  {| message := message; code := code; body := body;
     stack := Error_stack message |}.

Definition unexpected (methodName : string) (err : AxiosError) : t :=
  let serialized := JSON_stringify <$> response_data err in
  let detailed :=
    new (methodName +:+ ": " +:+ ax_message err +:+ ":" +:+ LF
           +:+ interpolate serialized)
        UNEXPECTED serialized in
  {| message := message detailed; code := code detailed;
     body := body detailed;
     stack := stack detailed +:+ "Caused by: "
                +:+ interpolate (ax_stack err) |}.

Definition unauthorized (methodName : string) : t :=
  new (methodName +:+ ": Request failed with Unauthorized error. Ensure you've provided correct api and secret keys.")
      UNAUTHORIZED None.

Definition taskExpired (methodName : string) : t :=
  new (methodName +:+ ": task is expired and removed already")
      EXPIRED None.

Definition tooLongPromptsOrBadRequest (methodName : string) : t :=
  new (methodName +:+ ": most likely prompt (+ negative prompt) are too long. If they're short, then this error may mean that API changed and library needs for update")
      LONG_PROMPT_OR_BAD_REQUEST None.

Definition unsupportedMedia (methodName : string) : t :=
  new (methodName +:+ ": Seems like API changed and library needs for update")
      UNSUPPORTED_MEDIA None.

Definition modelNotReady (methodName : string) (body : string) : t :=
  new (methodName +:+ ": requested model is not ready for usage now. See `body` field for details")
      MODEL_NOT_READY (Some body).
End Factories.

End FusionBrainError.

(** Everything a [throw] of these sources, or an operator they use, can
    raise. *)
Inductive exn : Type :=
| TypeError (message : string)
    (* [new TypeError(message)] *)
| InOperandError (p : prop_name) (operand : json)
    (* the TypeError of [p in operand] when the operand is no object;
       its wording is the engine's *)
| AxiosErr (err : AxiosError)
| FusionBrainErr (err : FusionBrainError.t)
| OtherErr (description : string).
    (* anything else the HTTP collaborator may reject with *)

(** Outcome of evaluating an expression or a function body. *)
Inductive completion (A : Type) : Type :=
| Normal (a : A)
| Throw (e : exn).
Arguments Normal {A} a.
Arguments Throw {A} e.

#[export] Instance completion_ret : MRet completion := @Normal.
#[export] Instance completion_bind : MBind completion :=
  fun A B f c => match c with Normal a => f a | Throw e => Throw e end.

(** [try { body } catch (e) { handler }] *)
Definition try_catch {A} (body : completion A)
    (handler : exn -> completion A) : completion A :=
  match body with
  | Normal a => Normal a
  | Throw e => handler e
  end.

(** [p in operand] *)
Definition in_op (p : prop_name) (operand : json) : completion bool :=
  match operand with
  | JObject props => Normal (bool_decide (is_Some (props !! key p)))
  | JArray _ => Normal false
  | JNull | JBool _ | JNumber _ | JString _ => Throw (InOperandError p operand)
  end.

(** [(p in jsonObject) && (typeof(jsonObject.p) === ty)] *)
Definition has_typed (p : prop_name) (ty : string) (jsonObject : json)
    : completion bool :=
  present ← in_op p jsonObject;
  mret (present && bool_decide (typeof (get p jsonObject) = ty)).

Definition found_or_missing (ok : bool) : string :=
  if ok then "found" else "missing".

(** ** Task *)

Module Task.

Definition INITIAL : string := "INITIAL".
Definition PROCESSING : string := "PROCESSING".
Definition DONE : string := "DONE".
Definition FAIL : string := "FAIL".

(** The [images] field holds the array of the response as it came:
    only its first element is known to be a string. *)
Record t : Type := {
  uuid : string;
  status : string;
  images : option (list json);
  errorDescription : option string;
  censored : option bool;
  generationTime : option float
}.

(** The message of the TypeError of [create], after [trim()]. *)
Definition structure_message (uuidOk statusOk : bool) : string :=
  "Task.create: passed object doesn't match required structure:" +:+ LF
  +:+ "uuid (string) - " +:+ found_or_missing uuidOk +:+ LF
  +:+ "status (string) - " +:+ found_or_missing statusOk.

Definition create (jsonObject : json) : completion t :=
  uuidOk ← has_typed K_uuid "string" jsonObject;
  statusOk ← has_typed K_status "string" jsonObject;
  if negb (uuidOk && statusOk) then
    Throw (TypeError (structure_message uuidOk statusOk))
  else
    hasImages ← in_op K_images jsonObject;
    let data_images :=
      if (hasImages : bool) then
        match get K_images jsonObject with
        | Some (JArray items) =>
            if bool_decide (0 < length items)%nat then
              if bool_decide (typeof (items !! 0%nat) = "string")
              then Some items else None
            else None
        | _ => None
        end
      else None in
    errorOk ← has_typed K_errorDescription "string" jsonObject;
    let data_errorDescription :=
      if (errorOk : bool) then
        match get K_errorDescription jsonObject with
        | Some (JString s) => Some s
        | _ => None
        end
      else None in
    censoredOk ← has_typed K_censored "boolean" jsonObject;
    let data_censored :=
      if (censoredOk : bool) then
        match get K_censored jsonObject with
        | Some (JBool b) => Some b
        | _ => None
        end
      else None in
    timeOk ← has_typed K_generationTime "number" jsonObject;
    let data_generationTime :=
      if (timeOk : bool) then
        match get K_generationTime jsonObject with
        | Some (JNumber n) => Some n
        | _ => None
        end
      else None in
    mret {| uuid := string_of (get K_uuid jsonObject);
            status := string_of (get K_status jsonObject);
            images := data_images;
            errorDescription := data_errorDescription;
            censored := data_censored;
            generationTime := data_generationTime |}.

Definition isFinished (this : t) : bool :=
  bool_decide (status this = DONE) || bool_decide (status this = FAIL).

Definition isCensored (this : t) : bool :=
  isFinished this && bool_decide (censored this = Some true).

Definition isSuccess (this : t) : bool :=
  let done := bool_decide (status this = DONE) in
  let notCensored := negb (isCensored this) in
  let gotImages := bool_decide (is_Some (images this)) in
  if done && notCensored && gotImages then
    match images this with
    | Some items => bool_decide (0 < length items)%nat
    | None => false
    end
  else false.

End Task.

(** ** Catalogue entries *)

(** [ModelInfo] and [StyleInfo] keep what their constructors receive: the
    fields hold run-time values ([None] is [undefined]); the declared
    field types exist at compile time only. *)
Module ModelInfo.

Record t : Type := {
  id : option json;
  name : option json;
  version : option json;
  type : option json
}.

Definition structure_message (idOk nameOk versionOk typeOk : bool)
    : string :=
  "ModelInfo.create: passed object doesn't match required structure:"
  +:+ LF +:+ "id (number) - " +:+ found_or_missing idOk
  +:+ LF +:+ "name (string) - " +:+ found_or_missing nameOk
  +:+ LF +:+ "version (number) - " +:+ found_or_missing versionOk
  +:+ LF +:+ "type (string) - " +:+ found_or_missing typeOk.

Definition create (jsonObject : json) : completion t :=
  idOk ← has_typed K_id "number" jsonObject;
  nameOk ← has_typed K_name "string" jsonObject;
  versionOk ← has_typed K_version "number" jsonObject;
  typeOk ← has_typed K_type "string" jsonObject;
  if idOk && nameOk && versionOk && typeOk then
    mret {| id := get K_id jsonObject;
            name := get K_name jsonObject;
            version := get K_number jsonObject;
            type := get K_type jsonObject |}
  else
    Throw (TypeError (structure_message idOk nameOk versionOk typeOk)).

End ModelInfo.

Module StyleInfo.

Record t : Type := {
  name : option json;
  title : option json;
  titleEn : option json;
  image : option json
}.

Definition structure_message (nameOk titleOk titleEnOk imageOk : bool)
    : string :=
  "StyleInfo.create: passed object doesn't match required structure:"
  +:+ LF +:+ "name (string) - " +:+ found_or_missing nameOk
  +:+ LF +:+ "title (string) - " +:+ found_or_missing titleOk
  +:+ LF +:+ "titleEn (string) - " +:+ found_or_missing titleEnOk
  +:+ LF +:+ "image (string) - " +:+ found_or_missing imageOk.

Definition create (jsonObject : json) : completion t :=
  nameOk ← has_typed K_name "string" jsonObject;
  titleOk ← has_typed K_title "string" jsonObject;
  titleEnOk ← has_typed K_titleEn "string" jsonObject;
  imageOk ← has_typed K_image "string" jsonObject;
  if nameOk && titleOk && titleEnOk && imageOk then
    mret {| name := get K_name jsonObject;
            title := get K_title jsonObject;
            titleEn := get K_titleEn jsonObject;
            image := get K_image jsonObject |}
  else
    Throw (TypeError (structure_message nameOk titleOk titleEnOk imageOk)).

End StyleInfo.

(** ** The client *)

(** [Generation]: the tagged result of a submission. *)
Inductive Generation : Type :=
| Accepted (task : Task.t)
| Refused (reason : string).

(** How the promise of the one HTTP exchange of an operation settles.
    The arguments of an operation (model id, prompt, options, task uuid)
    only shape the request; what the operation returns or throws is
    decided by how the exchange settles, so the operations below take
    the settled exchange as their input. *)
Inductive settled : Type :=
| Fulfilled (response : AxiosResponse)
| Rejected (reason : exn).

(** [await promise] *)
Definition await (promise : settled) : completion AxiosResponse :=
  match promise with
  | Fulfilled response => Normal response
  | Rejected reason => Throw reason
  end.

(** [items.map(create)]: the callback runs on the elements in order and
    the first exception ends the traversal. *)
Fixpoint map_create {A} (create : json -> completion A) (items : list json)
    : completion (list A) :=
  match items with
  | [] => Normal []
  | obj :: rest =>
      entry ← create obj;
      entries ← map_create create rest;
      mret (entry :: entries)
  end.

Module FusionBrain.
Section Client.
Context `{Runtime}.

(** [verbose_false] is optional; [if (verbose_false)] takes an omitted
    argument as false. *)
Definition isReady (verbose_false : option bool) (exchange : settled)
    : completion bool :=
  try_catch
    (response ← await exchange;
     let data := resp_data response in
     inStatus ← in_op K_status data;
     let statusOk := inStatus &&
       match get K_status data with
       | Some (JString s) => bool_decide (s = "ACTIVE")
       | _ => false
       end in
     inModelStatus ← in_op K_model_status data;
     let modelStatusOk := inModelStatus &&
       match get K_model_status data with
       | Some (JString s) => bool_decide (s = "ACTIVE")
       | _ => false
       end in
     if statusOk || modelStatusOk then mret true
     else if default false verbose_false then
       Throw (FusionBrainErr
                (FusionBrainError.modelNotReady "FusionBrain.checkModel"
                   (JSON_stringify data)))
     else mret false)
    (fun err =>
       match err with
       | AxiosErr e =>
           if bool_decide (response_status e = Some 401%Z) then
             Throw (FusionBrainErr
                      (FusionBrainError.unauthorized "FusionBrain.checkModel"))
           else
             Throw (FusionBrainErr
                      (FusionBrainError.unexpected "FusionBrain.checkModel" e))
       | _ => Throw err
       end).

Definition generate (exchange : settled) : completion Generation :=
  try_catch
    (response ← await exchange;
     try_catch
       (task ← Task.create (resp_data response);
        mret (Accepted task))
       (fun notTask =>
          mret (Refused (JSON_stringify (resp_data response)))))
    (fun err =>
       match err with
       | AxiosErr e =>
           match response_status e with
           | Some 400%Z =>
               Throw (FusionBrainErr
                        (FusionBrainError.tooLongPromptsOrBadRequest
                           "FusionBrain.generate"))
           | Some 401%Z =>
               Throw (FusionBrainErr
                        (FusionBrainError.unauthorized "FusionBrain.generate"))
           | Some 415%Z =>
               Throw (FusionBrainErr
                        (FusionBrainError.unsupportedMedia
                           "FusionBrain.generate"))
           | _ =>
               Throw (FusionBrainErr
                        (FusionBrainError.unexpected "FusionBrain.generate" e))
           end
       | _ => Throw err
       end).

Definition checkTask (exchange : settled) : completion Task.t :=
  try_catch
    (response ← await exchange;
     Task.create (resp_data response))
    (fun err =>
       match err with
       | AxiosErr e =>
           match response_status e with
           | Some 401%Z =>
               Throw (FusionBrainErr
                        (FusionBrainError.unauthorized "FusionBrain.checkTask"))
           | Some 404%Z =>
               Throw (FusionBrainErr
                        (FusionBrainError.taskExpired "FusionBrain.checkTask"))
           | _ =>
               Throw (FusionBrainErr
                        (FusionBrainError.unexpected "FusionBrain.checkTask" e))
           end
       | _ => Throw err
       end).

Definition getStyles (exchange : settled)
    : completion (list StyleInfo.t) :=
  try_catch
    (response ← await exchange;
     match resp_data response with
     | JArray items => map_create StyleInfo.create items
     | data =>
         Throw (TypeError
           ("FusionBrain.getStyles: Response expected to be array of objects, but non-array object received:"
            +:+ LF +:+ JSON_stringify data))
     end)
    (fun err =>
       match err with
       | AxiosErr e =>
           Throw (FusionBrainErr
                    (FusionBrainError.unexpected "FusionBrain.checkModel" e))
       | _ => Throw err
       end).

Definition getModels (exchange : settled)
    : completion (list ModelInfo.t) :=
  try_catch
    (response ← await exchange;
     match resp_data response with
     | JArray items => map_create ModelInfo.create items
     | data =>
         Throw (TypeError
           ("FusinBrain.getModels: Response expected to be array of objects, but non-array object received:"
            +:+ LF +:+ JSON_stringify data))
     end)
    (fun err =>
       match err with
       | AxiosErr e =>
           if bool_decide (response_status e = Some 401%Z) then
             Throw (FusionBrainErr
                      (FusionBrainError.unauthorized "FusionBrain.checkModel"))
           else
             Throw (FusionBrainErr
                      (FusionBrainError.unexpected "FusionBrain.checkModel" e))
       | _ => Throw err
       end).

End Client.
End FusionBrain.

(** The kind of the classified error an operation ended with, if any. *)
Definition error_kind {A} (c : completion A) : option FusionBrainErrorCode :=
  match c with
  | Throw (FusionBrainErr e) => Some (FusionBrainError.code e)
  | _ => None
  end.

(** ** The request of a submission *)

(** [PromptOptions]: every field may be left out. *)
Module PromptOptions.

Record t : Type := {
  style : option string;
  negative : option string;
  width : option float;
  height : option float;
  amount : option float
}.

(** [{}] *)
Definition empty : t :=
  {| style := None; negative := None; width := None; height := None;
     amount := None |}.

End PromptOptions.

(** The [params] object that [FusionBrain.generate] serializes into the
    form. *)
Module GenerateParams.

Record t : Type := {
  type : string;
  style : string;
  numImages : float;
  width : float;
  height : float;
  negativePromptUnclip : string;
  query : string
}.

End GenerateParams.

(** [options?.field ?? fallback]: the fallback is taken only when the
    options or the field are left out. *)
Definition nullish {A B} (options : option A) (field : A -> option B)
    (fallback : B) : B :=
  default fallback (options ≫= field).

Definition generate_params (prompt : string)
    (options : option PromptOptions.t) : GenerateParams.t :=
  {| GenerateParams.type := "GENERATE";
     GenerateParams.style := nullish options PromptOptions.style "DEFAULT";
     GenerateParams.numImages := nullish options PromptOptions.amount 1%float;
     GenerateParams.width := nullish options PromptOptions.width 768%float;
     GenerateParams.height := nullish options PromptOptions.height 768%float;
     GenerateParams.negativePromptUnclip :=
       nullish options PromptOptions.negative "";
     GenerateParams.query := prompt |}.

(** ** Release 0.0.1: the entities and the client that 0.0.2 replaced *)

Module GenerationTask.

Definition INITIAL : string := "INITIAL".
Definition PROCESSING : string := "PROCESSING".
Definition DONE : string := "DONE".
Definition FAIL : string := "FAIL".

Record t : Type := {
  uuid : string;
  status : string;
  images : option (list json);
  errorDescription : option string;
  censored : option bool;
  generationTime : option float
}.

Definition structure_message (uuidOk statusOk : bool) : string :=
  "GenerationTask.create: passed object doesn't match required structure:"
  +:+ LF +:+ "uuid (string) - " +:+ found_or_missing uuidOk
  +:+ LF +:+ "status (string) - " +:+ found_or_missing statusOk.

Definition create (jsonObject : json) : completion t :=
  uuidOk ← has_typed K_uuid "string" jsonObject;
  statusOk ← has_typed K_status "string" jsonObject;
  if negb (uuidOk && statusOk) then
    Throw (TypeError (structure_message uuidOk statusOk))
  else
    hasImages ← in_op K_images jsonObject;
    let data_images :=
      if (hasImages : bool) then
        match get K_images jsonObject with
        | Some (JArray items) =>
            if bool_decide (0 < length items)%nat then
              if bool_decide (typeof (items !! 0%nat) = "string")
              then Some items else None
            else None
        | _ => None
        end
      else None in
    errorOk ← has_typed K_errorDescription "string" jsonObject;
    let data_errorDescription :=
      if (errorOk : bool) then
        match get K_errorDescription jsonObject with
        | Some (JString s) => Some s
        | _ => None
        end
      else None in
    censoredOk ← has_typed K_censored "boolean" jsonObject;
    let data_censored :=
      if (censoredOk : bool) then
        match get K_censored jsonObject with
        | Some (JBool b) => Some b
        | _ => None
        end
      else None in
    timeOk ← has_typed K_generationTime "number" jsonObject;
    let data_generationTime :=
      if (timeOk : bool) then
        match get K_generationTime jsonObject with
        | Some (JNumber n) => Some n
        | _ => None
        end
      else None in
    mret {| uuid := string_of (get K_uuid jsonObject);
            status := string_of (get K_status jsonObject);
            images := data_images;
            errorDescription := data_errorDescription;
            censored := data_censored;
            generationTime := data_generationTime |}.

Definition isFinished (this : t) : bool :=
  bool_decide (status this = DONE) || bool_decide (status this = FAIL).

Definition isCensored (this : t) : bool :=
  isFinished this && bool_decide (censored this = Some true).

Definition isSuccess (this : t) : bool :=
  let done := bool_decide (status this = DONE) in
  let notCensored := negb (isCensored this) in
  let gotImages := bool_decide (is_Some (images this)) in
  if done && notCensored && gotImages then
    match images this with
    | Some items => bool_decide (0 < length items)%nat
    | None => false
    end
  else false.

End GenerationTask.

Module AvailabilityInfo.

Definition DISABLED_BY_QUEUE : string := "DISABLED_BY_QUEUE".
Definition ACTIVE : string := "ACTIVE".

Record t : Type := { status : string }.

(** Only [status] is reported, also when [model_status] was looked
    for. *)
Definition structure_message (statusOk : bool) : string :=
  "AvailabilityInfo.create: passed object doesn't match required structure:"
  +:+ LF +:+ "status (string) - " +:+ found_or_missing statusOk.

Definition create (jsonObject : json) : completion t :=
  statusOk ← has_typed K_status "string" jsonObject;
  modelStatusOk ← has_typed K_model_status "string" jsonObject;
  if (statusOk : bool) then
    mret {| status := string_of (get K_status jsonObject) |}
  else if (modelStatusOk : bool) then
    mret {| status := string_of (get K_model_status jsonObject) |}
  else
    Throw (TypeError (structure_message statusOk)).

Definition isReady (this : t) : bool :=
  bool_decide (status this = ACTIVE).

End AvailabilityInfo.

Module Prompt.

Record t : Type := {
  model_id : float;
  style : string;
  prompt : string;
  negativePrompt : string;
  width : float;
  height : float;
  amount : float
}.

(** The constructor; [amount] may be left out and is then 1. *)
Definition new (model_id : float) (style prompt negativePrompt : string)
    (width height : float) (amount : option float) : t :=
  {| model_id := model_id; style := style; prompt := prompt;
     negativePrompt := negativePrompt; width := width; height := height;
     amount := default 1%float amount |}.

Definition makeDefault (model_id : float) (prompt : string) : t :=
  new model_id "DEFAULT" prompt "" 1024%float 1024%float None.

End Prompt.

(** What a caught value shows when the 0.0.1 client reads its [message]
    or interpolates it. The engine words the error of [in]. *)
Class ErrorText : Type := {
  in_operand_message : prop_name -> json -> string
}.

Module Legacy.

(** The 0.0.1 error class has no [body] field; [None] stands for the
    [undefined] that reading it gives. *)
Module FusionBrainError.
Section Factories.
Context `{Runtime}.

Definition new (message : string) (code : FusionBrainErrorCode)
    : FusionBrainError.t :=
  {| FusionBrainError.message := message;
     FusionBrainError.code := code;
     FusionBrainError.body := None;
     FusionBrainError.stack := Error_stack message |}.

Definition unexpected (methodName : string) (err : AxiosError)
    : FusionBrainError.t :=
  let detailed :=
    new (methodName +:+ ": " +:+ ax_message err +:+ ":" +:+ LF
           +:+ interpolate (JSON_stringify <$> response_data err))
        UNEXPECTED in
  {| FusionBrainError.message := FusionBrainError.message detailed;
     FusionBrainError.code := FusionBrainError.code detailed;
     FusionBrainError.body := FusionBrainError.body detailed;
     FusionBrainError.stack :=
       FusionBrainError.stack detailed +:+ "Caused by: "
         +:+ interpolate (ax_stack err) |}.

Definition unauthorized (methodName : string) : FusionBrainError.t :=
  new (methodName +:+ ": Request failed with Unauthorized error. Ensure you've provided correct api and secret keys.")
      UNAUTHORIZED.

Definition taskExpired (methodName : string) : FusionBrainError.t :=
  new (methodName +:+ ": task is expired and removed already") EXPIRED.

Definition tooLongPromptsOrBadRequest (methodName : string)
    : FusionBrainError.t :=
  new (methodName +:+ ": most likely prompt (+ negative prompt) are too long. If they're short, then this error may mean that API changed and library needs for update")
      LONG_PROMPT_OR_BAD_REQUEST.

Definition unsupportedMedia (methodName : string) : FusionBrainError.t :=
  new (methodName +:+ ": Seems like API changed and library needs for update")
      UNSUPPORTED_MEDIA.

End Factories.
End FusionBrainError.

(** [GenerationTask | AvailabilityInfo] *)
Inductive GenerationResult : Type :=
| IsTask (task : GenerationTask.t)
| IsAvailability (info : AvailabilityInfo.t).

Module FusionBrain.
Section Client.
Context `{Runtime} `{ErrorText}.

(** [(e as Error).message]. In [generate] below only the TypeErrors of
    the two [create]s reach it. *)
Definition message_of (e : exn) : string :=
  match e with
  | TypeError message => message
  | InOperandError p operand => in_operand_message p operand
  | AxiosErr err => ax_message err
  | FusionBrainErr err => FusionBrainError.message err
  | OtherErr description => description
  end.

(** [`${e}`] of a caught TypeError: its name, a colon, its message. *)
Definition interpolate_error (e : exn) : string :=
  "TypeError: " +:+ message_of e.

(** The [params] object of the 0.0.1 [generate]. *)
Definition generate_params (options : Prompt.t) : GenerateParams.t :=
  {| GenerateParams.type := "GENERATE";
     GenerateParams.style := Prompt.style options;
     GenerateParams.numImages := Prompt.amount options;
     GenerateParams.width := Prompt.width options;
     GenerateParams.height := Prompt.height options;
     GenerateParams.negativePromptUnclip := Prompt.negativePrompt options;
     GenerateParams.query := Prompt.prompt options |}.

Definition checkModel (exchange : settled)
    : completion AvailabilityInfo.t :=
  try_catch
    (response ← await exchange;
     AvailabilityInfo.create (resp_data response))
    (fun err =>
       match err with
       | AxiosErr e =>
           if bool_decide (response_status e = Some 401%Z) then
             Throw (FusionBrainErr
                      (FusionBrainError.unauthorized "FusionBrain.checkModel"))
           else
             Throw (FusionBrainErr
                      (FusionBrainError.unexpected "FusionBrain.checkModel" e))
       | _ => Throw err
       end).

Definition generate (exchange : settled) : completion GenerationResult :=
  try_catch
    (response ← await exchange;
     try_catch
       (task ← GenerationTask.create (resp_data response);
        mret (IsTask task))
       (fun notGenerationTask =>
          try_catch
            (info ← AvailabilityInfo.create (resp_data response);
             mret (IsAvailability info))
            (fun notAvailabilityInfo =>
               Throw (FusionBrainErr
                        (FusionBrainError.new
                           (message_of notGenerationTask +:+ LF
                              +:+ interpolate_error notAvailabilityInfo)
                           UNEXPECTED)))))
    (fun err =>
       match err with
       | AxiosErr e =>
           match response_status e with
           | Some 400%Z =>
               Throw (FusionBrainErr
                        (FusionBrainError.tooLongPromptsOrBadRequest
                           "FusionBrain.generate"))
           | Some 401%Z =>
               Throw (FusionBrainErr
                        (FusionBrainError.unauthorized "FusionBrain.generate"))
           | Some 415%Z =>
               Throw (FusionBrainErr
                        (FusionBrainError.unsupportedMedia
                           "FusionBrain.generate"))
           | _ =>
               Throw (FusionBrainErr
                        (FusionBrainError.unexpected "FusionBrain.generate" e))
           end
       | _ => Throw err
       end).

Definition checkTask (exchange : settled) : completion GenerationTask.t :=
  try_catch
    (response ← await exchange;
     GenerationTask.create (resp_data response))
    (fun err =>
       match err with
       | AxiosErr e =>
           match response_status e with
           | Some 401%Z =>
               Throw (FusionBrainErr
                        (FusionBrainError.unauthorized "FusionBrain.checkTask"))
           | Some 404%Z =>
               Throw (FusionBrainErr
                        (FusionBrainError.taskExpired "FusionBrain.checkTask"))
           | _ =>
               Throw (FusionBrainErr
                        (FusionBrainError.unexpected "FusionBrain.checkTask" e))
           end
       | _ => Throw err
       end).

End Client.
End FusionBrain.

End Legacy.

(** The 0.0.2 task that has the fields of a 0.0.1 task. *)
Definition as_Task (old : GenerationTask.t) : Task.t :=
  {| Task.uuid := GenerationTask.uuid old;
     Task.status := GenerationTask.status old;
     Task.images := GenerationTask.images old;
     Task.errorDescription := GenerationTask.errorDescription old;
     Task.censored := GenerationTask.censored old;
     Task.generationTime := GenerationTask.generationTime old |}.

(** ** Views of a response used to state the properties *)

(** The values on which [in] raises: everything that is neither an
    object nor an array. *)
Definition primitive (j : json) : bool :=
  match j with
  | JObject _ | JArray _ => false
  | JNull | JBool _ | JNumber _ | JString _ => true
  end.

(** The errors that are TypeErrors: those the validators construct and
    the one [in] raises. *)
Definition is_type_error (e : exn) : bool :=
  match e with
  | TypeError _ | InOperandError _ _ => true
  | AxiosErr _ | FusionBrainErr _ | OtherErr _ => false
  end.

(** [err instanceof AxiosError] *)
Definition is_axios (e : exn) : bool :=
  match e with
  | AxiosErr _ => true
  | _ => false
  end.

(** Whether property [p] of [j] is there with [typeof] equal to [ty]. *)
Definition typed (p : prop_name) (ty : string) (j : json) : bool :=
  bool_decide (typeof (get p j) = ty).

(** An [images] value that [Task.create] keeps: an array whose element
    at index 0 is a string. *)
Definition kept_images (v : option json) : option (list json) :=
  match v with
  | Some (JArray (JString first :: rest)) => Some (JString first :: rest)
  | _ => None
  end.

Definition kept_string (v : option json) : option string :=
  match v with Some (JString s) => Some s | _ => None end.

Definition kept_boolean (v : option json) : option bool :=
  match v with Some (JBool b) => Some b | _ => None end.

Definition kept_number (v : option json) : option float :=
  match v with Some (JNumber n) => Some n | _ => None end.


(** ** Sample responses *)

(** A model entry as the service documents it. *)
Definition kandinsky : json :=
  JObject (<["id" := JNumber 4%float]>
          (<["name" := JString "Kandinsky"]>
          (<["version" := JNumber 3%float]>
          (<["type" := JString "TEXT2IMAGE"]> ∅)))).

(** A status reply that lacks [uuid]. *)
Definition reply_without_uuid : json :=
  JObject (<["status" := JString "DONE"]> ∅).

(** A finished task whose [images] array holds a string and then values
    that are no strings. *)
Definition reply_mixed_images : gmap string json :=
  <["uuid" := JString "c0ffee"]>
  (<["status" := JString "DONE"]>
  (<["images" := JArray [JString "aGVsbG8="; JNumber 7%float; JNull]]>
  (<["censored" := JBool false]> ∅))).

(** A rejected exchange: the service answers 401 with an empty object. *)
Definition unauthorized_reply : AxiosError :=
  {| ax_message := "Request failed with status code 401";
     ax_response := Some {| resp_status := 401; resp_data := JObject ∅ |};
     ax_stack := None |}.

(** A failed task as the status endpoint reports it, with a [censored]
    flag of the wrong type. *)
Definition reply_failed : gmap string json :=
  <["uuid" := JString "c0ffee"]>
  (<["status" := JString "FAIL"]>
  (<["errorDescription" := JString "out of memory"]>
  (<["censored" := JString "true"]> ∅))).

(** * Properties *)

(** ** Operators on parsed objects *)

Lemma typeof_string_inv (v : option json) :
  typeof v = "string" ↔ ∃ s, v = Some (JString s).
Proof.
  split.
  - destruct v as [[]|]; simpl; try discriminate. eauto.
  - intros [s ->]. reflexivity.
Qed.

(** On an object, [in] followed by the [typeof] test is the [typeof] test
    of the looked-up property: an absent property reads as [undefined]. *)
Lemma has_typed_object (p : prop_name) (ty : string)
    (props : gmap string json) :
  ty ≠ "undefined" →
  has_typed p ty (JObject props)
  = Normal (bool_decide (typeof (props !! key p) = ty)).
Proof.
  intros Hty. unfold has_typed. simpl.
  destruct (props !! key p) as [v|] eqn:Hv; simpl.
  - reflexivity.
  - rewrite bool_decide_eq_false_2 by congruence. reflexivity.
Qed.

Lemma has_typed_array (p : prop_name) (ty : string) (items : list json) :
  has_typed p ty (JArray items) = Normal false.
Proof. reflexivity. Qed.

Lemma has_typed_primitive (p : prop_name) (ty : string) (j : json) :
  primitive j = true → has_typed p ty j = Throw (InOperandError p j).
Proof. destruct j; simpl; try discriminate; reflexivity. Qed.

(** ** The lifecycle predicates *)

Lemma isFinished_iff (t : Task.t) :
  Task.isFinished t = true ↔ Task.status t = "DONE" ∨ Task.status t = "FAIL".
Proof.
  unfold Task.isFinished, Task.DONE, Task.FAIL.
  rewrite orb_true_iff, !bool_decide_eq_true. reflexivity.
Qed.

(** C1. [isSuccess] holds exactly when the status is "DONE", the
    [censored] field is not [true], and [images] is present and non-empty;
    hence a successful snapshot is finished and is not censored. *)
Theorem isSuccess_spec (t : Task.t) :
  (Task.isSuccess t = true ↔
     Task.status t = "DONE" ∧ Task.censored t ≠ Some true ∧
     ∃ items, Task.images t = Some items ∧ items ≠ [])
  ∧ (Task.isSuccess t = true → Task.isFinished t = true)
  ∧ (Task.isSuccess t = true → Task.isCensored t = false).
Proof.
  assert (Hiff : Task.isSuccess t = true ↔
     Task.status t = "DONE" ∧ Task.censored t ≠ Some true ∧
     ∃ items, Task.images t = Some items ∧ items ≠ []).
  { unfold Task.isSuccess, Task.isCensored, Task.isFinished,
      Task.DONE, Task.FAIL.
    destruct t as [u s imgs e c g]; simpl.
    split.
    - destruct (bool_decide (s = "DONE")) eqn:Hs; simpl; [|discriminate].
      apply bool_decide_eq_true in Hs.
      destruct (bool_decide (c = Some true)) eqn:Hc; simpl; [discriminate|].
      apply bool_decide_eq_false in Hc.
      destruct imgs as [items|]; simpl; [|discriminate].
      intros Hlen. apply bool_decide_eq_true in Hlen.
      repeat split; try assumption.
      exists items. split; [reflexivity|].
      intros ->. simpl in Hlen. lia.
    - intros (-> & Hc & items & -> & Hne). simpl.
      rewrite (bool_decide_eq_false_2 _ Hc). simpl.
      apply bool_decide_eq_true. destruct items; [congruence|simpl; lia]. }
  split; [exact Hiff|].
  split; intros Hs; apply Hiff in Hs as (Hd & Hc & _).
  - apply isFinished_iff. by left.
  - unfold Task.isCensored.
    rewrite (bool_decide_eq_false_2 _ Hc). apply andb_false_r.
Qed.

(** C2. [isCensored] holds exactly when the snapshot is finished and the
    [censored] flag is [true]; with a status other than "DONE" and "FAIL"
    it is false whatever the flag. *)
Theorem isCensored_spec (t : Task.t) :
  (Task.isCensored t = true ↔
     (Task.status t = "DONE" ∨ Task.status t = "FAIL")
     ∧ Task.censored t = Some true)
  ∧ (Task.status t ≠ "DONE" → Task.status t ≠ "FAIL" →
     Task.isCensored t = false).
Proof.
  unfold Task.isCensored. split.
  - rewrite andb_true_iff, isFinished_iff, bool_decide_eq_true. reflexivity.
  - intros Hd Hf.
    destruct (Task.isFinished t) eqn:Hfin; [|reflexivity].
    apply isFinished_iff in Hfin. tauto.
Qed.

(** ** Task validation *)

(** What [Task.create] does on a parsed object, in one equation. *)
Lemma create_object (props : gmap string json) :
  Task.create (JObject props) =
  let j := JObject props in
  if typed K_uuid "string" j && typed K_status "string" j then
    Normal {| Task.uuid := string_of (get K_uuid j);
              Task.status := string_of (get K_status j);
              Task.images := kept_images (get K_images j);
              Task.errorDescription := kept_string (get K_errorDescription j);
              Task.censored := kept_boolean (get K_censored j);
              Task.generationTime := kept_number (get K_generationTime j) |}
  else
    Throw (TypeError (Task.structure_message
                        (typed K_uuid "string" j) (typed K_status "string" j))).
Proof.
  unfold Task.create, typed.
  rewrite !has_typed_object by discriminate.
  cbn [get key mbind mret completion_bind completion_ret].
  destruct (bool_decide (typeof (props !! "uuid") = "string")
            && bool_decide (typeof (props !! "status") = "string"));
    cbn [negb]; [|reflexivity].
  unfold in_op. cbn [key mbind completion_bind].
  f_equal. f_equal.
  - destruct (props !! "images") as [[| | | |[|[] rest]|]|]; reflexivity.
  - destruct (props !! "errorDescription") as [[]|]; reflexivity.
  - destruct (props !! "censored") as [[]|]; reflexivity.
  - destruct (props !! "generationTime") as [[]|]; reflexivity.
Qed.

Lemma create_array (items : list json) :
  Task.create (JArray items)
  = Throw (TypeError (Task.structure_message false false)).
Proof. reflexivity. Qed.

Lemma create_primitive (j : json) :
  primitive j = true → Task.create j = Throw (InOperandError K_uuid j).
Proof.
  intros Hj. unfold Task.create.
  rewrite (has_typed_primitive K_uuid "string" j Hj). reflexivity.
Qed.

(** A task comes out of [Task.create] only for an object whose [uuid] and
    [status] are strings, and its fields are the kept views of the
    object's properties. *)
Lemma create_Normal_inv (j : json) (t : Task.t) :
  Task.create j = Normal t →
  get K_uuid j = Some (JString (Task.uuid t))
  ∧ get K_status j = Some (JString (Task.status t))
  ∧ Task.images t = kept_images (get K_images j)
  ∧ Task.errorDescription t = kept_string (get K_errorDescription j)
  ∧ Task.censored t = kept_boolean (get K_censored j)
  ∧ Task.generationTime t = kept_number (get K_generationTime j).
Proof.
  destruct j as [| | | |items|props];
    try (rewrite create_primitive by reflexivity; discriminate).
  - rewrite create_array. discriminate.
  - rewrite create_object. cbv zeta. unfold typed.
    destruct (bool_decide (typeof (get K_uuid (JObject props)) = "string"))
      eqn:Hu; [|discriminate].
    destruct (bool_decide (typeof (get K_status (JObject props)) = "string"))
      eqn:Hs; [|discriminate].
    apply bool_decide_eq_true, typeof_string_inv in Hu as [u Hu].
    apply bool_decide_eq_true, typeof_string_inv in Hs as [s Hs].
    cbn [andb]. intros [= <-]. cbn [Task.uuid Task.status Task.images
      Task.errorDescription Task.censored Task.generationTime].
    cbn [get key] in Hu, Hs |- *.
    rewrite Hu, Hs. repeat split; reflexivity.
Qed.

Lemma create_succeeds_iff (j : json) :
  (∃ t, Task.create j = Normal t)
  ↔ typed K_uuid "string" j && typed K_status "string" j = true.
Proof.
  split.
  - intros [t Ht]. apply create_Normal_inv in Ht as (Hu & Hs & _).
    unfold typed. rewrite Hu, Hs. reflexivity.
  - intros Hok. destruct j as [| | | |items|props]; try discriminate.
    rewrite create_object. cbv zeta. rewrite Hok. eauto.
Qed.

(** C7, as the code has it. When [uuid] or [status] is missing or is not
    a string, validation fails. On an object or an array the TypeError
    message marks each of the two required fields as found or missing; on
    [null] and on a primitive the [in] operator raises before any message
    is built, and its error names only the property it was asked for. *)
Theorem create_missing_required (j : json) :
  typed K_uuid "string" j && typed K_status "string" j = false →
  if primitive j then
    Task.create j = Throw (InOperandError K_uuid j)
  else
    Task.create j
    = Throw (TypeError
               ("Task.create: passed object doesn't match required structure:"
                +:+ LF +:+ "uuid (string) - "
                +:+ found_or_missing (typed K_uuid "string" j)
                +:+ LF +:+ "status (string) - "
                +:+ found_or_missing (typed K_status "string" j))).
Proof.
  intros Hmiss. destruct j as [| | | |items|props]; cbn [primitive];
    try (apply create_primitive; reflexivity).
  - apply create_array.
  - rewrite create_object. cbv zeta. rewrite Hmiss. reflexivity.
Qed.

(** C7, counterexample to the wording "for every JSON input": for [null]
    both required fields are missing, validation fails, yet the error is
    the one of the [in] operator and not a message that marks [uuid] and
    [status] as found or missing. *)
Lemma create_null_not_enumerated :
  typed K_uuid "string" JNull = false
  ∧ typed K_status "string" JNull = false
  ∧ Task.create JNull = Throw (InOperandError K_uuid JNull)
  ∧ ∀ uuidOk statusOk : bool,
      Task.create JNull
      ≠ Throw (TypeError (Task.structure_message uuidOk statusOk)).
Proof. repeat split; intros; discriminate. Qed.

(** C8, as the code has it. A task produced by [Task.create] carries the
    strings found under [uuid] and [status] (only their type is checked,
    so either may be empty), and its [images], when present, is a
    non-empty array whose first element is a string. *)
Theorem create_invariant (j : json) (t : Task.t) :
  Task.create j = Normal t →
  get K_uuid j = Some (JString (Task.uuid t))
  ∧ get K_status j = Some (JString (Task.status t))
  ∧ ∀ items, Task.images t = Some items →
      items ≠ [] ∧ typeof (items !! 0%nat) = "string".
Proof.
  intros Ht. apply create_Normal_inv in Ht as (Hu & Hs & Hi & _).
  split; [exact Hu|]. split; [exact Hs|].
  intros items Hitems. rewrite Hi in Hitems.
  destruct (get K_images j) as [[| | | |[|[] rest]|]|];
    simpl in Hitems; try discriminate.
  injection Hitems as <-. split; [discriminate|reflexivity].
Qed.

(** C8, counterexample to "non-empty strings": empty [uuid] and [status]
    pass validation and become the task's id and status. *)
Lemma create_empty_identifiers :
  ∃ t, Task.create (JObject (<["uuid" := JString ""]>
                             (<["status" := JString ""]> ∅))) = Normal t
     ∧ Task.uuid t = "" ∧ Task.status t = "".
Proof. eexists. repeat apply conj; reflexivity. Qed.

(** C10. Only the element at index 0 of [images] is type-checked. For an
    object that passes the required checks, a non-empty array starting
    with a string is stored whole, whatever follows the first element;
    an absent [images], a non-array, an empty array, or an array whose
    first element is no string leaves [images] absent and validation
    still succeeds. *)
Theorem create_images (props : gmap string json) (u s : string) :
  props !! "uuid" = Some (JString u) →
  props !! "status" = Some (JString s) →
  ∃ t, Task.create (JObject props) = Normal t
    ∧ (∀ first rest,
         props !! "images" = Some (JArray (JString first :: rest)) →
         Task.images t = Some (JString first :: rest))
    ∧ (props !! "images" = None → Task.images t = None)
    ∧ (∀ v, props !! "images" = Some v → (∀ items, v ≠ JArray items) →
         Task.images t = None)
    ∧ (props !! "images" = Some (JArray []) → Task.images t = None)
    ∧ (∀ x rest, props !! "images" = Some (JArray (x :: rest)) →
         typeof (Some x) ≠ "string" → Task.images t = None).
Proof.
  intros Hu Hs. rewrite create_object. cbv zeta. unfold typed.
  cbn [get key]. rewrite Hu, Hs. cbn [typeof]. simpl bool_decide.
  cbn [andb]. eexists. split; [reflexivity|].
  cbn [Task.images].
  repeat split.
  - intros first rest ->. reflexivity.
  - intros ->. reflexivity.
  - intros v -> Hv. destruct v; try reflexivity. by destruct (Hv items).
  - intros ->. reflexivity.
  - intros x rest -> Hx. destruct x; try reflexivity. by destruct Hx.
Qed.

(** ** The client's operations *)

Section ClientProperties.
Context `{Runtime}.

(** C3. When the exchange of a submission succeeds: a body that
    validates as a Task gives [{accepted: true, task}], the task's id
    being the body's [uuid]; a body that fails validation, as when
    [uuid] or [status] is missing or mistyped, gives
    [{accepted: false, reason}] with the serialized body as reason, and
    nothing is thrown. *)
Theorem generate_fulfilled (response : AxiosResponse) :
  let data := resp_data response in
  (∀ task, Task.create data = Normal task →
     FusionBrain.generate (Fulfilled response) = Normal (Accepted task)
     ∧ get K_uuid data = Some (JString (Task.uuid task)))
  ∧ (∀ e, Task.create data = Throw e →
       FusionBrain.generate (Fulfilled response)
       = Normal (Refused (JSON_stringify data)))
  ∧ (typed K_uuid "string" data && typed K_status "string" data = true →
       ∃ task, FusionBrain.generate (Fulfilled response)
               = Normal (Accepted task)
             ∧ get K_uuid data = Some (JString (Task.uuid task)))
  ∧ (typed K_uuid "string" data && typed K_status "string" data = false →
       FusionBrain.generate (Fulfilled response)
       = Normal (Refused (JSON_stringify data))).
Proof.
  intros data.
  assert (Hok : ∀ task, Task.create data = Normal task →
     FusionBrain.generate (Fulfilled response) = Normal (Accepted task)
     ∧ get K_uuid data = Some (JString (Task.uuid task))).
  { intros task Ht. split.
    - unfold FusionBrain.generate. simpl. fold data. rewrite Ht.
      reflexivity.
    - by apply create_Normal_inv in Ht as (Hu & _). }
  assert (Hko : ∀ e, Task.create data = Throw e →
       FusionBrain.generate (Fulfilled response)
       = Normal (Refused (JSON_stringify data))).
  { intros e He. unfold FusionBrain.generate. simpl. fold data.
    rewrite He. reflexivity. }
  repeat split; try (intros; by (apply Hok || eapply Hko)).
  - intros Htyped. apply create_succeeds_iff in Htyped as [task Ht].
    exists task. by apply Hok.
  - intros Htyped. destruct (Task.create data) as [task|e] eqn:Hc.
    + assert (Hsome : ∃ t, Task.create data = Normal t) by eauto.
      apply create_succeeds_iff in Hsome. congruence.
    + by eapply Hko.
Qed.

(** C4. Classification of a failed exchange, per operation: 404 on
    [checkTask] is EXPIRED; 401 on [isReady], [generate], [checkTask]
    and [getModels] is UNAUTHORIZED; 400 on [generate] is
    LONG_PROMPT_OR_BAD_REQUEST; 415 on [generate] is UNSUPPORTED_MEDIA;
    every other failure of the exchange, a missing reply included, is
    UNEXPECTED, as is every failure of the unauthenticated
    [getStyles]. *)
Theorem failed_exchange_kind (err : AxiosError) (verbose_false : option bool) :
  let failure := Rejected (AxiosErr err) in
  let status := response_status err in
  (status = Some 404%Z →
     error_kind (FusionBrain.checkTask failure) = Some EXPIRED)
  ∧ (status = Some 401%Z →
       error_kind (FusionBrain.isReady verbose_false failure)
       = Some UNAUTHORIZED
       ∧ error_kind (FusionBrain.generate failure) = Some UNAUTHORIZED
       ∧ error_kind (FusionBrain.checkTask failure) = Some UNAUTHORIZED
       ∧ error_kind (FusionBrain.getModels failure) = Some UNAUTHORIZED)
  ∧ (status = Some 400%Z →
       error_kind (FusionBrain.generate failure)
       = Some LONG_PROMPT_OR_BAD_REQUEST)
  ∧ (status = Some 415%Z →
       error_kind (FusionBrain.generate failure) = Some UNSUPPORTED_MEDIA)
  ∧ (status ≠ Some 401%Z →
       error_kind (FusionBrain.isReady verbose_false failure)
       = Some UNEXPECTED
       ∧ error_kind (FusionBrain.getModels failure) = Some UNEXPECTED)
  ∧ (status ≠ Some 400%Z → status ≠ Some 401%Z → status ≠ Some 415%Z →
       error_kind (FusionBrain.generate failure) = Some UNEXPECTED)
  ∧ (status ≠ Some 401%Z → status ≠ Some 404%Z →
       error_kind (FusionBrain.checkTask failure) = Some UNEXPECTED)
  ∧ error_kind (FusionBrain.getStyles failure) = Some UNEXPECTED.
Proof.
  intros failure status.
  unfold failure, FusionBrain.checkTask, FusionBrain.isReady,
    FusionBrain.generate, FusionBrain.getModels, FusionBrain.getStyles.
  cbn [await try_catch mbind completion_bind]. fold status.
  repeat apply conj.
  - intros ->. reflexivity.
  - intros ->. repeat apply conj; reflexivity.
  - intros ->. reflexivity.
  - intros ->. reflexivity.
  - intros Hne. rewrite !bool_decide_eq_false_2 by assumption.
    split; reflexivity.
  - intros H400 H401 H415.
    destruct status as [[|p|p]|]; try reflexivity.
    do 9 (destruct p as [p|p|]; try reflexivity); congruence.
  - intros H401 H404.
    destruct status as [[|p|p]|]; try reflexivity.
    do 9 (destruct p as [p|p|]; try reflexivity); congruence.
  - reflexivity.
Qed.
(** The test [(p in data) && (data.p === "ACTIVE")] of [isReady] on an
    object. *)
Lemma active_test (props : gmap string json) (p : string) :
  bool_decide (is_Some (props !! p))
  && match props !! p with
     | Some (JString s) => bool_decide (s = "ACTIVE")
     | _ => false
     end = true
  ↔ props !! p = Some (JString "ACTIVE").
Proof.
  destruct (props !! p) as [[| | |s| |]|]; simpl;
    try (split; [discriminate|congruence]).
  rewrite bool_decide_eq_true. split; congruence.
Qed.

(** C9. On a fulfilled exchange whose payload is an object: [isReady]
    returns true when [status] or [model_status] is "ACTIVE"; when
    neither is, it returns false without throwing unless the strict flag
    is set, and with the flag set it throws MODEL_NOT_READY whose body
    is the serialized payload. *)
Theorem isReady_fulfilled (http_status : Z) (props : gmap string json) :
  let response :=
    {| resp_status := http_status; resp_data := JObject props |} in
  let active (p : string) := props !! p = Some (JString "ACTIVE") in
  (∀ verbose_false, active "status" ∨ active "model_status" →
     FusionBrain.isReady verbose_false (Fulfilled response) = Normal true)
  ∧ (¬ active "status" → ¬ active "model_status" →
       FusionBrain.isReady None (Fulfilled response) = Normal false
       ∧ FusionBrain.isReady (Some false) (Fulfilled response)
         = Normal false
       ∧ ∃ e, FusionBrain.isReady (Some true) (Fulfilled response)
              = Throw (FusionBrainErr e)
            ∧ FusionBrainError.code e = MODEL_NOT_READY
            ∧ FusionBrainError.body e
              = Some (JSON_stringify (JObject props))).
Proof.
  intros response active.
  unfold FusionBrain.isReady, response.
  cbn [await try_catch mbind mret completion_bind completion_ret
       resp_data in_op get key].
  pose proof (active_test props "status") as Hs.
  pose proof (active_test props "model_status") as Hm.
  fold (active "status") in Hs. fold (active "model_status") in Hm.
  destruct (bool_decide (is_Some (props !! "status")) && _) eqn:Es;
  destruct (bool_decide (is_Some (props !! "model_status")) && _) eqn:Em;
    cbn [orb]; split;
    try (intros; reflexivity);
    try (intros Hns Hnm; exfalso; (apply Hns; by apply Hs)
                                  || (apply Hnm; by apply Hm)).
  - intros vf [Ha|Ha]; [apply Hs in Ha|apply Hm in Ha]; discriminate.
  - intros _ _. cbn [default]. repeat apply conj; try reflexivity.
    eexists. repeat apply conj; reflexivity.
Qed.

(** C5, what the code does. Whatever the failure of the exchange, the
    classified error of [getModels] and of [getStyles] starts with
    "FusionBrain.checkModel", the name of another operation, and with
    neither "FusionBrain.getModels" nor "FusionBrain.getStyles". *)
Theorem catalogue_errors_name_checkModel (err : AxiosError) :
  ∃ (models_error styles_error : FusionBrainError.t) (rest rest' : string),
    FusionBrain.getModels (Rejected (AxiosErr err))
    = Throw (FusionBrainErr models_error)
    ∧ FusionBrain.getStyles (Rejected (AxiosErr err))
      = Throw (FusionBrainErr styles_error)
    ∧ FusionBrainError.message models_error
      = "FusionBrain.checkModel" +:+ rest
    ∧ FusionBrainError.message styles_error
      = "FusionBrain.checkModel" +:+ rest'
    ∧ String.prefix "FusionBrain.getModels"
        (FusionBrainError.message models_error) = false
    ∧ String.prefix "FusionBrain.getStyles"
        (FusionBrainError.message styles_error) = false.
Proof.
  unfold FusionBrain.getModels, FusionBrain.getStyles.
  cbn [await try_catch mbind completion_bind].
  destruct (bool_decide (response_status err = Some 401%Z));
    do 4 eexists; repeat apply conj; reflexivity.
Qed.
(** An UNEXPECTED error carries the transport error's message, the
    serialized reply as body, and the transport error's stack after
    "Caused by: ". *)
Lemma unexpected_traceable (methodName : string) (err : AxiosError) :
  let e := FusionBrainError.unexpected methodName err in
  FusionBrainError.code e = UNEXPECTED
  ∧ FusionBrainError.message e
    = methodName +:+ ": " +:+ ax_message err +:+ ":" +:+ LF
      +:+ interpolate (JSON_stringify <$> response_data err)
  ∧ FusionBrainError.body e = JSON_stringify <$> response_data err
  ∧ FusionBrainError.stack e
    = Error_stack (FusionBrainError.message e) +:+ "Caused by: "
      +:+ interpolate (ax_stack err).
Proof. repeat apply conj; reflexivity. Qed.

(** [generate] and [checkTask] put their own names into the errors they
    classify. *)
Lemma submission_errors_name_operation (err : AxiosError) :
  ∃ (submit_error poll_error : FusionBrainError.t) (rest rest' : string),
    FusionBrain.generate (Rejected (AxiosErr err))
    = Throw (FusionBrainErr submit_error)
    ∧ FusionBrain.checkTask (Rejected (AxiosErr err))
      = Throw (FusionBrainErr poll_error)
    ∧ FusionBrainError.message submit_error
      = "FusionBrain.generate" +:+ rest
    ∧ FusionBrainError.message poll_error
      = "FusionBrain.checkTask" +:+ rest'.
Proof.
  unfold FusionBrain.generate, FusionBrain.checkTask.
  cbn [await try_catch mbind completion_bind].
  destruct (response_status err) as [[|p|p]|];
    try (do 4 eexists; repeat apply conj; reflexivity).
  do 9 (destruct p as [p|p|];
        try (do 4 eexists; repeat apply conj; reflexivity)).
Qed.

(** The same at a 401 reply: the message [getModels] fails with. *)
Example getModels_unauthorized_message :
  FusionBrainError.message
    <$> match FusionBrain.getModels (Rejected (AxiosErr unauthorized_reply)) with
        | Throw (FusionBrainErr e) => Some e
        | _ => None
        end
  = Some "FusionBrain.checkModel: Request failed with Unauthorized error. Ensure you've provided correct api and secret keys.".
Proof. reflexivity. Qed.

(** The two reply shapes that report readiness. *)
Example isReady_status_active :
  FusionBrain.isReady None
    (Fulfilled {| resp_status := 200;
                  resp_data := JObject {["status" := JString "ACTIVE"]} |})
  = Normal true.
Proof. reflexivity. Qed.

Example isReady_model_status_active :
  FusionBrain.isReady None
    (Fulfilled {| resp_status := 200;
                  resp_data :=
                    JObject {["model_status" := JString "ACTIVE"]} |})
  = Normal true.
Proof. reflexivity. Qed.

Example isReady_disabled :
  FusionBrain.isReady None
    (Fulfilled {| resp_status := 200;
                  resp_data :=
                    JObject {["model_status" := JString "DISABLED_BY_QUEUE"]} |})
  = Normal false.
Proof. reflexivity. Qed.
End ClientProperties.

(** ** ModelInfo validation *)

Lemma ModelInfo_create_object (props : gmap string json) :
  ModelInfo.create (JObject props) =
  let j := JObject props in
  if typed K_id "number" j && typed K_name "string" j
     && typed K_version "number" j && typed K_type "string" j
  then
    Normal {| ModelInfo.id := props !! "id";
              ModelInfo.name := props !! "name";
              ModelInfo.version := props !! "number";
              ModelInfo.type := props !! "type" |}
  else
    Throw (TypeError (ModelInfo.structure_message
                        (typed K_id "number" j) (typed K_name "string" j)
                        (typed K_version "number" j)
                        (typed K_type "string" j))).
Proof.
  unfold ModelInfo.create, typed.
  rewrite !has_typed_object by discriminate. reflexivity.
Qed.

(** C6, what the code does. For a well-formed model object validation
    succeeds and [id], [name] and [type] are the input's, but [version]
    is read from the key ["number"]: it is [undefined] although the
    input's ["version"] is 3. *)
Theorem ModelInfo_create_version_undefined :
  get K_version kandinsky = Some (JNumber 3%float)
  ∧ ModelInfo.create kandinsky
    = Normal {| ModelInfo.id := Some (JNumber 4%float);
                ModelInfo.name := Some (JString "Kandinsky");
                ModelInfo.version := None;
                ModelInfo.type := Some (JString "TEXT2IMAGE") |}
  ∧ ∀ m, ModelInfo.create kandinsky = Normal m →
         ModelInfo.version m ≠ get K_version kandinsky
         ∧ ModelInfo.version m = get K_number kandinsky.
Proof.
  repeat apply conj; try reflexivity.
  intros m [= <-]. split; [discriminate|reflexivity].
Qed.

(** ** Instances at sample responses *)

Lemma create_missing_required_witness :
  Task.create reply_without_uuid
  = Throw (TypeError
             ("Task.create: passed object doesn't match required structure:"
              +:+ LF +:+ "uuid (string) - missing"
              +:+ LF +:+ "status (string) - found")).
Proof. exact (create_missing_required reply_without_uuid eq_refl). Defined.

Lemma create_invariant_witness :
  get K_uuid (JObject reply_mixed_images) = Some (JString "c0ffee")
  ∧ get K_status (JObject reply_mixed_images) = Some (JString "DONE")
  ∧ ∀ items,
      Some [JString "aGVsbG8="; JNumber 7%float; JNull] = Some items →
      items ≠ [] ∧ typeof (items !! 0%nat) = "string".
Proof.
  exact (create_invariant (JObject reply_mixed_images)
           {| Task.uuid := "c0ffee"; Task.status := "DONE";
              Task.images := Some [JString "aGVsbG8="; JNumber 7%float; JNull];
              Task.errorDescription := None;
              Task.censored := Some false;
              Task.generationTime := None |} eq_refl).
Defined.

Lemma create_images_witness :
  ∃ t, Task.create (JObject reply_mixed_images) = Normal t
     ∧ Task.images t = Some [JString "aGVsbG8="; JNumber 7%float; JNull].
Proof.
  destruct (create_images reply_mixed_images "c0ffee" "DONE" eq_refl eq_refl)
    as (t & Ht & Hkeep & _).
  exists t. split; [exact Ht|]. apply Hkeep. reflexivity.
Defined.

(** The two lifecycle predicates in terms of the fields of a snapshot. *)
Lemma isSuccess_iff_fields (t : Task.t) :
  (Task.isSuccess t = true ↔
     Task.status t = "DONE" ∧ Task.censored t ≠ Some true
     ∧ ∃ items, Task.images t = Some items ∧ items ≠ [])
  ∧ (Task.isCensored t = true ↔
       (Task.status t = "DONE" ∨ Task.status t = "FAIL")
       ∧ Task.censored t = Some true).
Proof.
  split.
  - unfold Task.isSuccess, Task.isCensored, Task.isFinished,
      Task.DONE, Task.FAIL.
    destruct t as [u s imgs e c g]; simpl.
    destruct (decide (s = "DONE")) as [->|Hs].
    + simpl. destruct (decide (c = Some true)) as [->|Hc].
      * simpl. split; [discriminate|]. intros (_ & Hne & _). by destruct Hne.
      * rewrite (bool_decide_eq_false_2 _ Hc). simpl.
        destruct imgs as [[|x items]|]; simpl; split;
          try discriminate; try (intros (_ & _ & ? & ? & ?); congruence).
        intros _. repeat split; try assumption.
        eexists. split; [reflexivity|discriminate].
    + rewrite (bool_decide_eq_false_2 _ Hs). simpl.
      split; [discriminate|]. intros (? & _). contradiction.
  - unfold Task.isCensored.
    rewrite andb_true_iff, isFinished_iff, bool_decide_eq_true. reflexivity.
Qed.

(** What [Task.create] throws. *)
Lemma create_Throw_inv (j : json) (e : exn) :
  Task.create j = Throw e →
  (∃ uuidOk statusOk,
     e = TypeError (Task.structure_message uuidOk statusOk))
  ∨ e = InOperandError K_uuid j.
Proof.
  intros He. destruct j as [| | | |items|props];
    try (rewrite create_primitive in He by reflexivity;
         injection He as <-; by right).
  - rewrite create_array in He. injection He as <-. left. eauto.
  - rewrite create_object in He. cbv zeta in He.
    destruct (typed K_uuid "string" (JObject props)
              && typed K_status "string" (JObject props));
      [discriminate|].
    injection He as <-. left. eauto.
Qed.

Lemma create_Throw_type_error (j : json) (e : exn) :
  Task.create j = Throw e → is_type_error e = true.
Proof.
  intros He. apply create_Throw_inv in He as [(? & ? & ->)| ->]; reflexivity.
Qed.

(** A [catch] that rethrows what is no [AxiosError] leaves a body that
    throws TypeErrors only as it is. *)
Lemma try_catch_rethrow {A} (body : completion A)
    (handler : exn → completion A) :
  (∀ e, body = Throw e → is_type_error e = true) →
  (∀ e, is_type_error e = true → handler e = Throw e) →
  try_catch body handler = body.
Proof.
  intros Hbody Hhandler. destruct body as [a|e]; [reflexivity|].
  simpl. apply Hhandler, Hbody. reflexivity.
Qed.

(** * Further properties of the entities and of the client *)

(** ** Task validation and the lifecycle predicates together *)

(** X1. [Task.create] returns a task exactly for an object whose [uuid] and
    [status] are strings; whatever else the object holds cannot make it
    fail. When it fails it throws a TypeError, its own or the one of
    [in], and nothing else. *)
Theorem Task_create_outcome (j : json) :
  ((∃ t, Task.create j = Normal t) ↔
     ∃ props u s, j = JObject props
       ∧ props !! "uuid" = Some (JString u)
       ∧ props !! "status" = Some (JString s))
  ∧ (∀ e, Task.create j = Throw e →
       (∃ uuidOk statusOk,
          e = TypeError (Task.structure_message uuidOk statusOk))
       ∨ e = InOperandError K_uuid j).
Proof.
  split.
  - split.
    + intros [t Ht]. apply create_Normal_inv in Ht as (Hu & Hs & _).
      destruct j as [| | | | |props]; try discriminate.
      exists props, (Task.uuid t), (Task.status t). auto.
    + intros (props & u & s & -> & Hu & Hs).
      apply create_succeeds_iff. unfold typed. cbn [get key].
      rewrite Hu, Hs. reflexivity.
  - apply create_Throw_inv.
Qed.

(** X2. The optional fields of a validated task are those of the reply that
    have the expected type: a string [errorDescription], a boolean
    [censored], a number [generationTime]. A field that is absent or of
    another type is absent in the task. *)
Theorem Task_create_optional_fields (props : gmap string json) (t : Task.t) :
  Task.create (JObject props) = Normal t →
  (∀ s, Task.errorDescription t = Some s
        ↔ props !! "errorDescription" = Some (JString s))
  ∧ (∀ b, Task.censored t = Some b
          ↔ props !! "censored" = Some (JBool b))
  ∧ (∀ n, Task.generationTime t = Some n
          ↔ props !! "generationTime" = Some (JNumber n)).
Proof.
  intros Ht. apply create_Normal_inv in Ht as (_ & _ & _ & He & Hc & Hg).
  cbn [get key] in He, Hc, Hg. rewrite He, Hc, Hg.
  repeat apply conj; intros x.
  - destruct (props !! "errorDescription") as [[]|]; simpl;
      split; congruence.
  - destruct (props !! "censored") as [[]|]; simpl; split; congruence.
  - destruct (props !! "generationTime") as [[]|]; simpl; split; congruence.
Qed.

(** X3. The predicates of a validated task, read on the reply it was made
    from: it is a success iff [status] is "DONE", [censored] is not the
    boolean [true], and [images] is an array that starts with a string;
    it is censored iff [status] is "DONE" or "FAIL" and [censored] is the
    boolean [true]. *)
Theorem validated_task_predicates (j : json) (t : Task.t) :
  Task.create j = Normal t →
  (Task.isSuccess t = true ↔
     get K_status j = Some (JString "DONE")
     ∧ get K_censored j ≠ Some (JBool true)
     ∧ ∃ first rest,
         get K_images j = Some (JArray (JString first :: rest)))
  ∧ (Task.isCensored t = true ↔
       (get K_status j = Some (JString "DONE")
        ∨ get K_status j = Some (JString "FAIL"))
       ∧ get K_censored j = Some (JBool true)).
Proof.
  intros Ht. apply create_Normal_inv in Ht as (_ & Hs & Hi & _ & Hc & _).
  assert (Hst : ∀ x, get K_status j = Some (JString x) ↔ Task.status t = x).
  { intros x. rewrite Hs. split; congruence. }
  assert (Hcen : get K_censored j = Some (JBool true)
                 ↔ Task.censored t = Some true).
  { rewrite Hc. destruct (get K_censored j) as [[]|]; simpl;
      split; congruence. }
  assert (Himg : (∃ first rest,
                    get K_images j = Some (JArray (JString first :: rest)))
                 ↔ ∃ items, Task.images t = Some items ∧ items ≠ []).
  { rewrite Hi.
    destruct (get K_images j) as [[| | | |[|[] rest]|]|]; simpl; split;
      try (intros (? & ? & ?); discriminate);
      try (intros (? & ? & ?); congruence).
    - intros _. eexists. split; [reflexivity|discriminate].
    - intros _. eauto. }
  split.
  - rewrite (proj1 (isSuccess_iff_fields t)), Hst, Hcen, Himg. reflexivity.
  - rewrite (proj2 (isSuccess_iff_fields t)), !Hst, Hcen. reflexivity.
Qed.

(** ** Catalogue entries *)

Lemma StyleInfo_create_object (props : gmap string json) :
  StyleInfo.create (JObject props) =
  let j := JObject props in
  if typed K_name "string" j && typed K_title "string" j
     && typed K_titleEn "string" j && typed K_image "string" j
  then
    Normal {| StyleInfo.name := props !! "name";
              StyleInfo.title := props !! "title";
              StyleInfo.titleEn := props !! "titleEn";
              StyleInfo.image := props !! "image" |}
  else
    Throw (TypeError (StyleInfo.structure_message
                        (typed K_name "string" j) (typed K_title "string" j)
                        (typed K_titleEn "string" j)
                        (typed K_image "string" j))).
Proof.
  unfold StyleInfo.create, typed.
  rewrite !has_typed_object by discriminate. reflexivity.
Qed.

Lemma typed_string_object (p : prop_name) (props : gmap string json) :
  typed p "string" (JObject props) = true
  ↔ ∃ s, props !! key p = Some (JString s).
Proof.
  unfold typed. rewrite bool_decide_eq_true. apply typeof_string_inv.
Qed.

Lemma typed_number_object (p : prop_name) (props : gmap string json) :
  typed p "number" (JObject props) = true
  ↔ ∃ n, props !! key p = Some (JNumber n).
Proof.
  unfold typed. rewrite bool_decide_eq_true. cbn [get].
  split.
  - destruct (props !! key p) as [[]|]; simpl; try discriminate. eauto.
  - intros [n ->]. reflexivity.
Qed.

(** X4. [StyleInfo.create] returns an entry exactly for an object whose
    [name], [title], [titleEn] and [image] are strings, and the entry
    holds these four strings; on any other object or on an array it
    throws the TypeError whose message marks each of the four as found
    or missing, and on [null] or a primitive the TypeError of [in]. *)
Theorem StyleInfo_create_outcome (j : json) :
  (∀ entry, StyleInfo.create j = Normal entry ↔
     ∃ props name title titleEn image,
       j = JObject props
       ∧ props !! "name" = Some (JString name)
       ∧ props !! "title" = Some (JString title)
       ∧ props !! "titleEn" = Some (JString titleEn)
       ∧ props !! "image" = Some (JString image)
       ∧ entry = {| StyleInfo.name := Some (JString name);
                    StyleInfo.title := Some (JString title);
                    StyleInfo.titleEn := Some (JString titleEn);
                    StyleInfo.image := Some (JString image) |})
  ∧ (∀ e, StyleInfo.create j = Throw e →
       if primitive j then e = InOperandError K_name j
       else e = TypeError
                  (StyleInfo.structure_message
                     (typed K_name "string" j) (typed K_title "string" j)
                     (typed K_titleEn "string" j)
                     (typed K_image "string" j))).
Proof.
  destruct j as [| | | |items|props];
    try (split; [intros entry; split;
                   [discriminate|intros (? & ? & ? & ? & ? & ? & _); discriminate]
                |intros e [= <-]; reflexivity]).
  rewrite StyleInfo_create_object. cbv zeta.
  destruct (typed K_name "string" (JObject props)) eqn:Hn;
  destruct (typed K_title "string" (JObject props)) eqn:Ht;
  destruct (typed K_titleEn "string" (JObject props)) eqn:Hte;
  destruct (typed K_image "string" (JObject props)) eqn:Hi;
    cbn [andb primitive];
    try (split; [|intros e [= <-]; reflexivity];
         intros entry; split; [discriminate|];
         intros (props' & n & t & te & im & [= <-] & Hn' & Ht' & Hte' & Hi' & _);
         exfalso;
         first [ apply not_true_iff_false in Hn; apply Hn;
                 apply (typed_string_object K_name); eauto
               | apply not_true_iff_false in Ht; apply Ht;
                 apply (typed_string_object K_title); eauto
               | apply not_true_iff_false in Hte; apply Hte;
                 apply (typed_string_object K_titleEn); eauto
               | apply not_true_iff_false in Hi; apply Hi;
                 apply (typed_string_object K_image); eauto ]).
  apply (typed_string_object K_name) in Hn as [n Hn].
  apply (typed_string_object K_title) in Ht as [t Ht].
  apply (typed_string_object K_titleEn) in Hte as [te Hte].
  apply (typed_string_object K_image) in Hi as [im Hi].
  cbn [key] in Hn, Ht, Hte, Hi.
  split; [|discriminate].
  intros entry. rewrite Hn, Ht, Hte, Hi. split.
  - intros [= <-]. exists props, n, t, te, im. auto 10.
  - intros (props' & n' & t' & te' & im' & [= <-] & Hn' & Ht' & Hte' & Hi' & ->).
    congruence.
Qed.

(** X5. [ModelInfo.create] returns an entry exactly for an object whose [id]
    and [version] are numbers and whose [name] and [type] are strings.
    The entry's [id], [name] and [type] are the object's; its [version]
    is whatever the object holds under "number". On any other object or
    on an array the TypeError marks each of the four as found or missing;
    on [null] or a primitive the TypeError is the one of [in]. *)
Theorem ModelInfo_create_outcome (j : json) :
  (∀ entry, ModelInfo.create j = Normal entry ↔
     ∃ props id name version type,
       j = JObject props
       ∧ props !! "id" = Some (JNumber id)
       ∧ props !! "name" = Some (JString name)
       ∧ props !! "version" = Some (JNumber version)
       ∧ props !! "type" = Some (JString type)
       ∧ entry = {| ModelInfo.id := Some (JNumber id);
                    ModelInfo.name := Some (JString name);
                    ModelInfo.version := props !! "number";
                    ModelInfo.type := Some (JString type) |})
  ∧ (∀ e, ModelInfo.create j = Throw e →
       if primitive j then e = InOperandError K_id j
       else e = TypeError
                  (ModelInfo.structure_message
                     (typed K_id "number" j) (typed K_name "string" j)
                     (typed K_version "number" j)
                     (typed K_type "string" j))).
Proof.
  destruct j as [| | | |items|props];
    try (split; [intros entry; split;
                   [discriminate|intros (? & ? & ? & ? & ? & ? & _); discriminate]
                |intros e [= <-]; reflexivity]).
  rewrite ModelInfo_create_object. cbv zeta.
  destruct (typed K_id "number" (JObject props)) eqn:Hi;
  destruct (typed K_name "string" (JObject props)) eqn:Hn;
  destruct (typed K_version "number" (JObject props)) eqn:Hv;
  destruct (typed K_type "string" (JObject props)) eqn:Ht;
    cbn [andb primitive];
    try (split; [|intros e [= <-]; reflexivity];
         intros entry; split; [discriminate|];
         intros (props' & i & n & v & t & [= <-] & Hi' & Hn' & Hv' & Ht' & _);
         exfalso;
         first [ apply not_true_iff_false in Hi; apply Hi;
                 apply (typed_number_object K_id); eauto
               | apply not_true_iff_false in Hn; apply Hn;
                 apply (typed_string_object K_name); eauto
               | apply not_true_iff_false in Hv; apply Hv;
                 apply (typed_number_object K_version); eauto
               | apply not_true_iff_false in Ht; apply Ht;
                 apply (typed_string_object K_type); eauto ]).
  apply (typed_number_object K_id) in Hi as [i Hi].
  apply (typed_string_object K_name) in Hn as [n Hn].
  apply (typed_number_object K_version) in Hv as [v Hv].
  apply (typed_string_object K_type) in Ht as [t Ht].
  cbn [key] in Hi, Hn, Hv, Ht.
  split; [|discriminate].
  intros entry. rewrite Hi, Hn, Ht. split.
  - intros [= <-]. exists props, i, n, v, t. auto 10.
  - intros (props' & i' & n' & v' & t' & [= <-] & Hi' & Hn' & Hv' & Ht' & ->).
    congruence.
Qed.

(** ** Listings *)

Section Traversal.
Context {A : Type} (create : json → completion A).

Lemma map_create_Normal (items : list json) (entries : list A) :
  map_create create items = Normal entries
  ↔ Forall2 (λ obj entry, create obj = Normal entry) items entries.
Proof.
  revert entries. induction items as [|obj rest IH]; intros entries; simpl.
  - split.
    + intros [= <-]. constructor.
    + intros Hall. inversion Hall. reflexivity.
  - destruct (create obj) as [entry|e] eqn:Hobj; simpl.
    + destruct (map_create create rest) as [entries'|e] eqn:Hrest; simpl.
      * split.
        -- intros [= <-]. constructor; [assumption|]. by apply IH.
        -- intros Hall. inversion Hall as [|? entry' ? tl Hhd Htl]; subst.
           apply IH in Htl.
           assert (entry = entry') as -> by congruence.
           assert (entries' = tl) as -> by congruence.
           reflexivity.
      * split; [discriminate|].
        intros Hall. inversion Hall as [|? entry' ? tl Hhd Htl]; subst.
        apply IH in Htl. discriminate.
    + split; [discriminate|].
      intros Hall. inversion Hall; subst. congruence.
Qed.

Lemma map_create_Throw (items : list json) (e : exn) :
  map_create create items = Throw e
  ↔ ∃ i obj, items !! i = Some obj ∧ create obj = Throw e
      ∧ ∀ k obj', (k < i)%nat → items !! k = Some obj' →
          ∃ entry, create obj' = Normal entry.
Proof.
  induction items as [|obj rest IH]; simpl.
  - split; [discriminate|]. intros (i & x & Hi & _). destruct i; discriminate.
  - destruct (create obj) as [entry|e'] eqn:Hobj; simpl.
    + assert (Hbind :
        (map_create create rest ≫= λ entries, mret (entry :: entries))
        = Throw e ↔ map_create create rest = Throw e).
      { destruct (map_create create rest); simpl; split;
          discriminate || congruence. }
      rewrite Hbind, IH. split.
      * intros (i & x & Hi & Hx & Hb).
        exists (S i), x. repeat split; try assumption.
        intros [|k] y Hk Hy.
        -- injection Hy as <-. eauto.
        -- apply (Hb k y); [lia|exact Hy].
      * intros ([|i] & x & Hi & Hx & Hb).
        -- injection Hi as <-. congruence.
        -- exists i, x. repeat split; try assumption.
           intros k y Hk Hy. apply (Hb (S k) y); [lia|exact Hy].
    + split.
      * intros [= <-]. exists 0%nat, obj. repeat split; try assumption.
        intros k y Hk. lia.
      * intros ([|i] & x & Hi & Hx & Hb).
        -- injection Hi as <-. congruence.
        -- destruct (Hb 0%nat obj) as [entry Hentry];
             [lia|reflexivity|congruence].
Qed.

Lemma map_create_length (items : list json) (entries : list A) :
  map_create create items = Normal entries → length entries = length items.
Proof.
  intros Hall. apply map_create_Normal in Hall.
  symmetry. eapply Forall2_length, Hall.
Qed.

Lemma map_create_Throw_type_error (items : list json) (e : exn) :
  (∀ obj e', create obj = Throw e' → is_type_error e' = true) →
  map_create create items = Throw e → is_type_error e = true.
Proof.
  intros Hcreate He. apply map_create_Throw in He as (i & obj & _ & Hobj & _).
  eauto.
Qed.
End Traversal.

Lemma ModelInfo_create_Throw_type_error (j : json) (e : exn) :
  ModelInfo.create j = Throw e → is_type_error e = true.
Proof.
  destruct j as [| | | |items|props]; try (intros [= <-]; reflexivity).
  rewrite ModelInfo_create_object. cbv zeta.
  destruct (_ && _); [discriminate|]. intros [= <-]. reflexivity.
Qed.

Lemma StyleInfo_create_Throw_type_error (j : json) (e : exn) :
  StyleInfo.create j = Throw e → is_type_error e = true.
Proof.
  destruct j as [| | | |items|props]; try (intros [= <-]; reflexivity).
  rewrite StyleInfo_create_object. cbv zeta.
  destruct (_ && _); [discriminate|]. intros [= <-]. reflexivity.
Qed.

(** ** The operations on a settled exchange *)

Section OperationProperties.
Context `{Runtime}.

Lemma checkTask_Fulfilled_eq (response : AxiosResponse) :
  FusionBrain.checkTask (Fulfilled response)
  = Task.create (resp_data response).
Proof.
  unfold FusionBrain.checkTask. cbn [await mbind completion_bind].
  apply try_catch_rethrow.
  - apply create_Throw_type_error.
  - intros [] He; try discriminate; reflexivity.
Qed.

Lemma getModels_Fulfilled_eq (response : AxiosResponse) :
  FusionBrain.getModels (Fulfilled response)
  = match resp_data response with
    | JArray items => map_create ModelInfo.create items
    | data =>
        Throw (TypeError
          ("FusinBrain.getModels: Response expected to be array of objects, but non-array object received:"
           +:+ LF +:+ JSON_stringify data))
    end.
Proof.
  unfold FusionBrain.getModels. cbn [await mbind completion_bind].
  apply try_catch_rethrow.
  - intros e. destruct (resp_data response);
      try (intros [= <-]; reflexivity).
    apply map_create_Throw_type_error, ModelInfo_create_Throw_type_error.
  - intros [] He; try discriminate; reflexivity.
Qed.

Lemma getStyles_Fulfilled_eq (response : AxiosResponse) :
  FusionBrain.getStyles (Fulfilled response)
  = match resp_data response with
    | JArray items => map_create StyleInfo.create items
    | data =>
        Throw (TypeError
          ("FusionBrain.getStyles: Response expected to be array of objects, but non-array object received:"
           +:+ LF +:+ JSON_stringify data))
    end.
Proof.
  unfold FusionBrain.getStyles. cbn [await mbind completion_bind].
  apply try_catch_rethrow.
  - intros e. destruct (resp_data response);
      try (intros [= <-]; reflexivity).
    apply map_create_Throw_type_error, StyleInfo_create_Throw_type_error.
  - intros [] He; try discriminate; reflexivity.
Qed.

(** How [isReady] ends on a fulfilled exchange: with a boolean, with the
    TypeError of [in], or with MODEL_NOT_READY. *)
Lemma isReady_Fulfilled_cases (verbose_false : option bool)
    (response : AxiosResponse) :
  (∃ b, FusionBrain.isReady verbose_false (Fulfilled response) = Normal b)
  ∨ FusionBrain.isReady verbose_false (Fulfilled response)
    = Throw (InOperandError K_status (resp_data response))
  ∨ FusionBrain.isReady verbose_false (Fulfilled response)
    = Throw (FusionBrainErr
               (FusionBrainError.modelNotReady "FusionBrain.checkModel"
                  (JSON_stringify (resp_data response)))).
Proof.
  unfold FusionBrain.isReady.
  cbn [await try_catch mbind mret completion_bind completion_ret].
  destruct (resp_data response) as [| | | |items|props];
    try (right; left; reflexivity).
  - cbn. destruct (default false verbose_false); eauto.
  - cbn [in_op get mbind completion_bind].
    destruct (_ && _); destruct (_ && _); cbn [orb]; eauto.
    destruct (default false verbose_false); eauto.
Qed.

(** X6. [checkTask] on a fulfilled exchange is [Task.create] on the body: a
    body that does not validate surfaces as the validator's TypeError,
    not as a classified error. It accepts exactly the bodies that
    [generate] accepts, with the same task; where [checkTask] throws,
    [generate] returns the refusal with the serialized body. *)
Theorem checkTask_fulfilled (response : AxiosResponse) :
  FusionBrain.checkTask (Fulfilled response)
  = Task.create (resp_data response)
  ∧ (∀ task, FusionBrain.checkTask (Fulfilled response) = Normal task
             ↔ FusionBrain.generate (Fulfilled response)
               = Normal (Accepted task))
  ∧ (∀ e, FusionBrain.checkTask (Fulfilled response) = Throw e →
          is_type_error e = true
          ∧ FusionBrain.generate (Fulfilled response)
            = Normal (Refused (JSON_stringify (resp_data response)))).
Proof.
  rewrite checkTask_Fulfilled_eq.
  unfold FusionBrain.generate.
  cbn [await try_catch mbind mret completion_bind completion_ret].
  repeat apply conj; [reflexivity| |].
  - intros task. destruct (Task.create (resp_data response)); simpl;
      split; congruence.
  - intros e He. split; [by eapply create_Throw_type_error|].
    rewrite He. reflexivity.
Qed.

(** X7. A listing whose body is an array succeeds exactly when every element
    validates, and then holds the validated elements in the order of the
    body, one for each element. *)
Theorem listing_all_or_nothing (http_status : Z) (items : list json) :
  let exchange :=
    Fulfilled {| resp_status := http_status; resp_data := JArray items |} in
  (∀ entries, FusionBrain.getModels exchange = Normal entries ↔
     Forall2 (λ obj entry, ModelInfo.create obj = Normal entry)
       items entries)
  ∧ (∀ entries, FusionBrain.getStyles exchange = Normal entries ↔
       Forall2 (λ obj entry, StyleInfo.create obj = Normal entry)
         items entries)
  ∧ (∀ entries, FusionBrain.getModels exchange = Normal entries →
       length entries = length items)
  ∧ (∀ entries, FusionBrain.getStyles exchange = Normal entries →
       length entries = length items).
Proof.
  intros exchange. unfold exchange.
  rewrite getModels_Fulfilled_eq, getStyles_Fulfilled_eq.
  cbn [resp_data]. repeat apply conj; intros entries.
  - apply map_create_Normal.
  - apply map_create_Normal.
  - apply map_create_length.
  - apply map_create_length.
Qed.

(** X8. A listing whose body is an array fails with the error of the first
    element that does not validate: the elements before it validated,
    those after it are not looked at. *)
Theorem listing_first_failure (http_status : Z) (items : list json)
    (e : exn) :
  let exchange :=
    Fulfilled {| resp_status := http_status; resp_data := JArray items |} in
  (FusionBrain.getModels exchange = Throw e ↔
     ∃ i obj, items !! i = Some obj ∧ ModelInfo.create obj = Throw e
       ∧ ∀ k obj', (k < i)%nat → items !! k = Some obj' →
           ∃ entry, ModelInfo.create obj' = Normal entry)
  ∧ (FusionBrain.getStyles exchange = Throw e ↔
       ∃ i obj, items !! i = Some obj ∧ StyleInfo.create obj = Throw e
         ∧ ∀ k obj', (k < i)%nat → items !! k = Some obj' →
             ∃ entry, StyleInfo.create obj' = Normal entry).
Proof.
  intros exchange. unfold exchange.
  rewrite getModels_Fulfilled_eq, getStyles_Fulfilled_eq.
  cbn [resp_data]. split; apply map_create_Throw.
Qed.

(** X9. A listing whose body is no array throws a TypeError that quotes the
    serialized body; no element is validated and the error is not a
    classified one. *)
Theorem listing_non_array (response : AxiosResponse) :
  match resp_data response with
  | JArray _ => True
  | data =>
      FusionBrain.getModels (Fulfilled response)
      = Throw (TypeError
          ("FusinBrain.getModels: Response expected to be array of objects, but non-array object received:"
           +:+ LF +:+ JSON_stringify data))
      ∧ FusionBrain.getStyles (Fulfilled response)
        = Throw (TypeError
            ("FusionBrain.getStyles: Response expected to be array of objects, but non-array object received:"
             +:+ LF +:+ JSON_stringify data))
  end.
Proof.
  rewrite getModels_Fulfilled_eq, getStyles_Fulfilled_eq.
  destruct (resp_data response); try split; reflexivity || exact I.
Qed.

(** Every operation turns a rejection by an [AxiosError] into a
    classified error. *)
Lemma rejected_classified (err : AxiosError) (verbose_false : option bool) :
  let failure := Rejected (AxiosErr err) in
  (∃ fb, FusionBrain.isReady verbose_false failure
         = Throw (FusionBrainErr fb))
  ∧ (∃ fb, FusionBrain.generate failure = Throw (FusionBrainErr fb))
  ∧ (∃ fb, FusionBrain.checkTask failure = Throw (FusionBrainErr fb))
  ∧ (∃ fb, FusionBrain.getStyles failure = Throw (FusionBrainErr fb))
  ∧ (∃ fb, FusionBrain.getModels failure = Throw (FusionBrainErr fb)).
Proof.
  intros failure.
  destruct (submission_errors_name_operation err)
    as (e1 & e2 & _ & _ & Hg & Hc & _).
  repeat apply conj; eauto.
  - unfold failure, FusionBrain.isReady.
    cbn [await try_catch mbind completion_bind].
    destruct (bool_decide _); eauto.
  - unfold failure, FusionBrain.getModels.
    cbn [await try_catch mbind completion_bind].
    destruct (bool_decide _); eauto.
Qed.

(** X10. No operation lets an [AxiosError] through, however the exchange
    settles: a failed exchange surfaces classified. A rejection that is
    no [AxiosError] is thrown on as it is by every operation. *)
Theorem exchange_failures_surface (exchange : settled)
    (verbose_false : option bool) :
  (∀ err,
     FusionBrain.isReady verbose_false exchange ≠ Throw (AxiosErr err)
     ∧ FusionBrain.generate exchange ≠ Throw (AxiosErr err)
     ∧ FusionBrain.checkTask exchange ≠ Throw (AxiosErr err)
     ∧ FusionBrain.getStyles exchange ≠ Throw (AxiosErr err)
     ∧ FusionBrain.getModels exchange ≠ Throw (AxiosErr err))
  ∧ (∀ reason, exchange = Rejected reason →
       (∀ err, reason ≠ AxiosErr err) →
       FusionBrain.isReady verbose_false exchange = Throw reason
       ∧ FusionBrain.generate exchange = Throw reason
       ∧ FusionBrain.checkTask exchange = Throw reason
       ∧ FusionBrain.getStyles exchange = Throw reason
       ∧ FusionBrain.getModels exchange = Throw reason).
Proof.
  assert (Hforeign : ∀ reason, (∀ err, reason ≠ AxiosErr err) →
       FusionBrain.isReady verbose_false (Rejected reason) = Throw reason
       ∧ FusionBrain.generate (Rejected reason) = Throw reason
       ∧ FusionBrain.checkTask (Rejected reason) = Throw reason
       ∧ FusionBrain.getStyles (Rejected reason) = Throw reason
       ∧ FusionBrain.getModels (Rejected reason) = Throw reason).
  { intros reason Hreason.
    destruct reason as [m|p operand|err|fb|d];
      try (repeat apply conj; reflexivity).
    by destruct (Hreason err). }
  split; [|intros reason ->; apply Hforeign].
  intros err. destruct exchange as [response|reason].
  - repeat apply conj.
    + destruct (isReady_Fulfilled_cases verbose_false response)
        as [[b ->]|[-> | ->]]; discriminate.
    + unfold FusionBrain.generate.
      cbn [await try_catch mbind mret completion_bind completion_ret].
      destruct (Task.create (resp_data response)); discriminate.
    + rewrite checkTask_Fulfilled_eq. intros He.
      apply create_Throw_type_error in He. discriminate.
    + rewrite getStyles_Fulfilled_eq. intros He.
      destruct (resp_data response); try discriminate.
      apply map_create_Throw_type_error in He;
        [discriminate|apply StyleInfo_create_Throw_type_error].
    + rewrite getModels_Fulfilled_eq. intros He.
      destruct (resp_data response); try discriminate.
      apply map_create_Throw_type_error in He;
        [discriminate|apply ModelInfo_create_Throw_type_error].
  - destruct (decide (is_axios reason = true)) as [Hax|Hax].
    + destruct reason as [| |err'| |]; try discriminate.
      destruct (rejected_classified err' verbose_false)
        as ([? ->] & [? ->] & [? ->] & [? ->] & [? ->]).
      repeat apply conj; discriminate.
    + destruct (Hforeign reason) as (-> & -> & -> & -> & ->).
      * intros err' ->. by destruct Hax.
      * repeat apply conj; intros [= ->]; by destruct Hax.
Qed.

(** X11. What a classified error carries as [body] when an operation turns an
    [AxiosError] into it: the serialized reply for UNEXPECTED, provided
    the transport error has a reply, and nothing for every other kind. *)
Theorem classified_body (err : AxiosError) (verbose_false : option bool)
    (fb : FusionBrainError.t) :
  let failure := Rejected (AxiosErr err) in
  let carried :=
    match FusionBrainError.code fb with
    | UNEXPECTED => JSON_stringify <$> response_data err
    | _ => None
    end in
  (FusionBrain.isReady verbose_false failure = Throw (FusionBrainErr fb) →
   FusionBrainError.body fb = carried)
  ∧ (FusionBrain.generate failure = Throw (FusionBrainErr fb) →
     FusionBrainError.body fb = carried)
  ∧ (FusionBrain.checkTask failure = Throw (FusionBrainErr fb) →
     FusionBrainError.body fb = carried)
  ∧ (FusionBrain.getStyles failure = Throw (FusionBrainErr fb) →
     FusionBrainError.body fb = carried)
  ∧ (FusionBrain.getModels failure = Throw (FusionBrainErr fb) →
     FusionBrainError.body fb = carried).
Proof.
  intros failure carried. unfold failure, carried,
    FusionBrain.isReady, FusionBrain.generate, FusionBrain.checkTask,
    FusionBrain.getStyles, FusionBrain.getModels.
  cbn [await try_catch mbind completion_bind].
  repeat apply conj.
  - destruct (bool_decide _); intros [= <-]; reflexivity.
  - destruct (response_status err) as [[|p|p]|];
      try (intros [= <-]; reflexivity).
    do 9 (destruct p as [p|p|]; try (intros [= <-]; reflexivity)).
  - destruct (response_status err) as [[|p|p]|];
      try (intros [= <-]; reflexivity).
    do 9 (destruct p as [p|p|]; try (intros [= <-]; reflexivity)).
  - intros [= <-]. reflexivity.
  - destruct (bool_decide _); intros [= <-]; reflexivity.
Qed.

(** X12. [isReady] on a body that is no object. An array has neither field:
    the answer is false, or MODEL_NOT_READY under the strict flag. On
    [null] or a primitive the [in] test throws its TypeError, with or
    without the strict flag, and the error is not a classified one. *)
Theorem isReady_non_object (verbose_false : option bool)
    (response : AxiosResponse) :
  match resp_data response with
  | JObject _ => True
  | JArray _ =>
      FusionBrain.isReady verbose_false (Fulfilled response)
      = if default false verbose_false
        then Throw (FusionBrainErr
                      (FusionBrainError.modelNotReady
                         "FusionBrain.checkModel"
                         (JSON_stringify (resp_data response))))
        else Normal false
  | data =>
      FusionBrain.isReady verbose_false (Fulfilled response)
      = Throw (InOperandError K_status data)
  end.
Proof.
  unfold FusionBrain.isReady.
  cbn [await try_catch mbind mret completion_bind completion_ret].
  destruct (resp_data response) as [| | | |items|props];
    try reflexivity; try exact I.
  cbn. destruct (default false verbose_false); reflexivity.
Qed.
End OperationProperties.

(** ** The request of a submission *)

(** X13. With no options, with the empty options object and with the
    defaults spelled out, [generate] sends the same parameters: style
    "DEFAULT", one image, 768 by 768, an empty negative prompt. An
    option that is given is sent as given, an empty style or negative
    prompt and an amount other than 1 included. *)
Theorem generate_params_defaults (prompt : string) :
  generate_params prompt None
  = generate_params prompt (Some PromptOptions.empty)
  ∧ generate_params prompt None
    = generate_params prompt
        (Some {| PromptOptions.style := Some "DEFAULT";
                 PromptOptions.negative := Some "";
                 PromptOptions.width := Some 768%float;
                 PromptOptions.height := Some 768%float;
                 PromptOptions.amount := Some 1%float |})
  ∧ ∀ options : PromptOptions.t,
      let params := generate_params prompt (Some options) in
      GenerateParams.query params = prompt
      ∧ GenerateParams.type params = "GENERATE"
      ∧ (∀ style, PromptOptions.style options = Some style →
           GenerateParams.style params = style)
      ∧ (∀ negative, PromptOptions.negative options = Some negative →
           GenerateParams.negativePromptUnclip params = negative)
      ∧ (∀ width, PromptOptions.width options = Some width →
           GenerateParams.width params = width)
      ∧ (∀ height, PromptOptions.height options = Some height →
           GenerateParams.height params = height)
      ∧ (∀ amount, PromptOptions.amount options = Some amount →
           GenerateParams.numImages params = amount).
Proof.
  repeat apply conj; try reflexivity.
  intros options params. unfold params, generate_params, nullish.
  cbn [GenerateParams.query GenerateParams.type GenerateParams.style
       GenerateParams.negativePromptUnclip GenerateParams.width
       GenerateParams.height GenerateParams.numImages mbind option_bind].
  repeat apply conj; try reflexivity; intros x ->; reflexivity.
Qed.

(** ** Release 0.0.1 against release 0.0.2 *)

Lemma AvailabilityInfo_create_object (props : gmap string json) :
  AvailabilityInfo.create (JObject props) =
  let j := JObject props in
  if typed K_status "string" j then
    Normal {| AvailabilityInfo.status := string_of (props !! "status") |}
  else if typed K_model_status "string" j then
    Normal {| AvailabilityInfo.status :=
                string_of (props !! "model_status") |}
  else
    Throw (TypeError (AvailabilityInfo.structure_message false)).
Proof.
  unfold AvailabilityInfo.create, typed.
  rewrite !has_typed_object by discriminate.
  cbn [get key mbind mret completion_bind completion_ret].
  destruct (bool_decide (typeof (props !! "status") = "string"));
    reflexivity.
Qed.

Lemma AvailabilityInfo_create_Throw_type_error (j : json) (e : exn) :
  AvailabilityInfo.create j = Throw e → is_type_error e = true.
Proof.
  destruct j as [| | | |items|props]; try (intros [= <-]; reflexivity).
  rewrite AvailabilityInfo_create_object. cbv zeta.
  destruct (typed K_status _ _); [discriminate|].
  destruct (typed K_model_status _ _); [discriminate|].
  intros [= <-]. reflexivity.
Qed.

(** X14. [AvailabilityInfo.create] takes [status] when it is a string and
    [model_status] only otherwise, so a string [status] wins over
    [model_status]. When neither is a string, the TypeError on an object
    or array reports [status] as missing and does not mention
    [model_status]; on [null] or a primitive it is the TypeError of
    [in]. *)
Theorem AvailabilityInfo_create_outcome (j : json) :
  (∀ info, AvailabilityInfo.create j = Normal info ↔
     ∃ props, j = JObject props
       ∧ ((∃ s, props !! "status" = Some (JString s)
                ∧ AvailabilityInfo.status info = s)
          ∨ ((∀ s, props !! "status" ≠ Some (JString s))
             ∧ ∃ s, props !! "model_status" = Some (JString s)
                    ∧ AvailabilityInfo.status info = s)))
  ∧ (∀ e, AvailabilityInfo.create j = Throw e →
       if primitive j then e = InOperandError K_status j
       else e = TypeError
                  ("AvailabilityInfo.create: passed object doesn't match required structure:"
                   +:+ LF +:+ "status (string) - missing")).
Proof.
  destruct j as [| | | |items|props];
    try (split; [intros info; split;
                   [discriminate|intros (? & ? & _); discriminate]
                |intros e [= <-]; reflexivity]).
  rewrite AvailabilityInfo_create_object. cbv zeta. cbn [primitive].
  destruct (typed K_status "string" (JObject props)) eqn:Hs.
  - apply (typed_string_object K_status) in Hs as [s Hs]. cbn [key] in Hs.
    split; [|discriminate]. intros [status]. rewrite Hs. cbn [string_of].
    split.
    + intros [= <-]. exists props. split; [reflexivity|]. left. eauto.
    + intros (props' & [= <-] & [(s' & Hs' & Hinfo)|(Hno & _)]).
      * cbn in Hinfo. congruence.
      * by destruct (Hno s).
  - assert (Hno : ∀ s, props !! "status" ≠ Some (JString s)).
    { intros s Hs'. apply not_true_iff_false in Hs. apply Hs.
      apply (typed_string_object K_status). eauto. }
    destruct (typed K_model_status "string" (JObject props)) eqn:Hm.
    + apply (typed_string_object K_model_status) in Hm as [m Hm].
      cbn [key] in Hm. split; [|discriminate].
      intros [status]. rewrite Hm. cbn [string_of]. split.
      * intros [= <-]. exists props. split; [reflexivity|]. right.
        split; [exact Hno|eauto].
      * intros (props' & [= <-] & [(s' & Hs' & _)|(_ & m' & Hm' & Hinfo)]).
        -- by destruct (Hno s').
        -- cbn in Hinfo. congruence.
    + split; [|intros e [= <-]; reflexivity].
      intros info. split; [discriminate|].
      intros (props' & [= <-] & [(s' & Hs' & _)|(_ & m' & Hm' & _)]).
      * by destruct (Hno s').
      * apply not_true_iff_false in Hm. destruct Hm.
        apply (typed_string_object K_model_status). eauto.
Qed.

Lemma GenerationTask_agrees_with_Task_create (j : json) :
  match GenerationTask.create j, Task.create j with
  | Normal old, Normal task => task = as_Task old
  | Throw (TypeError message), Throw (TypeError message') =>
      ∃ uuidOk statusOk,
        message = GenerationTask.structure_message uuidOk statusOk
        ∧ message' = Task.structure_message uuidOk statusOk
  | Throw (InOperandError p operand), Throw e' =>
      e' = InOperandError p operand
  | _, _ => False
  end.
Proof.
  destruct j as [| | | |items|props]; try reflexivity.
  - cbn. exists false, false. split; reflexivity.
  - unfold GenerationTask.create, Task.create.
    rewrite !has_typed_object by discriminate.
    cbn [mbind mret completion_bind completion_ret].
    destruct (bool_decide (typeof (props !! key K_uuid) = "string")) eqn:Hu;
    destruct (bool_decide (typeof (props !! key K_status) = "string")) eqn:Hs;
      cbn [andb negb];
      try (eexists _, _; split; reflexivity).
    cbn [in_op mbind completion_bind]. reflexivity.
Qed.

(** X15. Renaming [GenerationTask] to [Task] changed the wording of the
    validation error and nothing else: on every input both validators
    succeed or both fail, a success carries the same fields, a failure
    marks the same fields as found or missing, and the three predicates
    agree on every snapshot. *)
Theorem GenerationTask_agrees_with_Task (j : json) :
  match GenerationTask.create j, Task.create j with
  | Normal old, Normal task => task = as_Task old
  | Throw (TypeError message), Throw (TypeError message') =>
      ∃ uuidOk statusOk,
        message = GenerationTask.structure_message uuidOk statusOk
        ∧ message' = Task.structure_message uuidOk statusOk
  | Throw (InOperandError p operand), Throw e' =>
      e' = InOperandError p operand
  | _, _ => False
  end
  ∧ ∀ old : GenerationTask.t,
      GenerationTask.isFinished old = Task.isFinished (as_Task old)
      ∧ GenerationTask.isCensored old = Task.isCensored (as_Task old)
      ∧ GenerationTask.isSuccess old = Task.isSuccess (as_Task old).
Proof.
  split; [apply GenerationTask_agrees_with_Task_create|].
  intros []; repeat apply conj; reflexivity.
Qed.

(** Reads equations between outcomes and boolean tests in the context. *)
Ltac settle_outcomes :=
  repeat match goal with
         | Hc : Normal _ = Throw _ |- _ => discriminate Hc
         | Hc : Throw _ = Normal _ |- _ => discriminate Hc
         | Hc : Normal _ = Normal _ |- _ => injection Hc as Hc; try subst
         | Hc : Throw _ = Throw _ |- _ => injection Hc as Hc; try subst
         | Hb : bool_decide _ = true |- _ => apply bool_decide_eq_true in Hb
         | Hb : bool_decide _ = false |- _ =>
             apply bool_decide_eq_false in Hb
         end;
  cbn in *; try done.

Section LegacyClient.
Context `{Runtime} `{ErrorText}.

Lemma checkModel_Fulfilled_eq (response : AxiosResponse) :
  Legacy.FusionBrain.checkModel (Fulfilled response)
  = AvailabilityInfo.create (resp_data response).
Proof.
  unfold Legacy.FusionBrain.checkModel. cbn [await mbind completion_bind].
  apply try_catch_rethrow.
  - apply AvailabilityInfo_create_Throw_type_error.
  - intros [] He; try discriminate; reflexivity.
Qed.

(** X16. [isReady] of 0.0.2 against [checkModel(...).isReady()] of 0.0.1
    on the same reply. Where the old pair says ready, so does the
    new operation. The new one also says ready for a reply whose
    [model_status] is "ACTIVE" beside a [status] string that is not, which
    the old pair reads as not ready; and where the old [checkModel] throws
    because neither field is a string, the new one answers false, except
    on [null] or a primitive, where both throw the TypeError of [in]. *)
Theorem readiness_old_and_new (response : AxiosResponse) :
  let data := resp_data response in
  let old := Legacy.FusionBrain.checkModel (Fulfilled response) in
  let new := FusionBrain.isReady None (Fulfilled response) in
  (∀ info, old = Normal info → AvailabilityInfo.isReady info = true →
     new = Normal true)
  ∧ (∀ info, old = Normal info → AvailabilityInfo.isReady info = false →
       (new = Normal true ↔
          get K_model_status data = Some (JString "ACTIVE")
          ∧ ∃ s, get K_status data = Some (JString s) ∧ s ≠ "ACTIVE")
       ∧ (new = Normal true ∨ new = Normal false))
  ∧ (∀ e, old = Throw e →
       if primitive data then
         e = InOperandError K_status data ∧ new = Throw e
       else new = Normal false).
Proof.
  intros data old new. unfold old, new, data. clear old new data.
  rewrite checkModel_Fulfilled_eq.
  unfold FusionBrain.isReady.
  cbn [await try_catch mbind mret completion_bind completion_ret].
  destruct (resp_data response) as [| | | |items|props].
  1-4: repeat apply conj; [intros info [=]|intros info [=]|];
       intros e [= <-]; split; reflexivity.
  - repeat apply conj; [intros info [=]|intros info [=]|].
    intros e _. reflexivity.
  - rewrite AvailabilityInfo_create_object. cbv zeta.
    unfold typed, AvailabilityInfo.isReady, AvailabilityInfo.ACTIVE.
    cbn [in_op get key mbind mret completion_bind completion_ret
         default primitive].
    destruct (props !! "status") as [[| | |s| |]|];
    destruct (props !! "model_status") as [[| | |m| |]|];
      cbn;
      try (destruct (decide (s = "ACTIVE")) as [->|Hs];
           [|rewrite ?(bool_decide_eq_false_2 _ Hs)]);
      try (destruct (decide (m = "ACTIVE")) as [->|Hm];
           [|rewrite ?(bool_decide_eq_false_2 _ Hm)]);
      simpl; repeat apply conj; intros; simpl in *; settle_outcomes;
      simpl in *;
      try (split; [split; [discriminate
                          |intros (? & ? & ? & ?); congruence]
                  |eauto]);
      try (split; [split; [eauto|reflexivity]|eauto]);
      try congruence.
Qed.

(** X17. The 0.0.1 [generate] on a fulfilled exchange: a body that validates
    as a task is returned as a task; otherwise a body with a string
    [status] or [model_status] is returned as availability info, so a task
    reply that lacks [uuid] is read as availability; otherwise it throws
    an UNEXPECTED error made of the two validation messages. It never
    throws a TypeError. *)
Theorem legacy_generate_fulfilled (response : AxiosResponse) :
  let data := resp_data response in
  let result := Legacy.FusionBrain.generate (Fulfilled response) in
  (∀ task, GenerationTask.create data = Normal task →
     result = Normal (Legacy.IsTask task))
  ∧ (∀ e info, GenerationTask.create data = Throw e →
       AvailabilityInfo.create data = Normal info →
       result = Normal (Legacy.IsAvailability info))
  ∧ (∀ e e', GenerationTask.create data = Throw e →
       AvailabilityInfo.create data = Throw e' →
       result = Throw (FusionBrainErr
                  (Legacy.FusionBrainError.new
                     (Legacy.FusionBrain.message_of e +:+ LF
                        +:+ "TypeError: "
                        +:+ Legacy.FusionBrain.message_of e')
                     UNEXPECTED)))
  ∧ (∀ props s, data = JObject props →
       (∀ u, props !! "uuid" ≠ Some (JString u)) →
       props !! "status" = Some (JString s) →
       result
       = Normal (Legacy.IsAvailability {| AvailabilityInfo.status := s |}))
  ∧ (∀ e, result = Throw e →
       ∃ fb, e = FusionBrainErr fb
             ∧ FusionBrainError.code fb = UNEXPECTED
             ∧ FusionBrainError.body fb = None).
Proof.
  intros data result.
  unfold result, Legacy.FusionBrain.generate,
    Legacy.FusionBrain.interpolate_error.
  cbn [await mbind mret completion_bind completion_ret]. fold data.
  pose proof (GenerationTask_agrees_with_Task_create data) as Hagree.
  assert (Hstatus : ∀ props s, data = JObject props →
            props !! "status" = Some (JString s) →
            AvailabilityInfo.create data
            = Normal {| AvailabilityInfo.status := s |}).
  { intros props s -> Hs. rewrite AvailabilityInfo_create_object.
    cbv zeta. unfold typed. cbn [get key]. rewrite Hs. reflexivity. }
  destruct (GenerationTask.create data) as [task|e1] eqn:Hgt;
    [|destruct (AvailabilityInfo.create data) as [info|e2] eqn:Hai];
    cbn [try_catch mbind completion_bind];
    repeat apply conj; try (intros; settle_outcomes; reflexivity).
  - intros props s Hdata Hu Hs. exfalso.
    destruct (Task.create data) as [t|] eqn:Ht; [|contradiction].
    apply create_Normal_inv in Ht as (Hu' & _).
    rewrite Hdata in Hu'. cbn in Hu'. by destruct (Hu (Task.uuid t)).
  - intros props s Hdata Hu Hs.
    specialize (Hstatus props s Hdata Hs). injection Hstatus as ->.
    reflexivity.
  - intros props s Hdata Hu Hs.
    specialize (Hstatus props s Hdata Hs). discriminate.
  - intros e [= <-]. eexists. repeat apply conj; reflexivity.
Qed.

(** The defaults of the two releases: [Prompt.makeDefault] asks for
    1024 by 1024 where [generate] without options asks for 768 by 768;
    the other parameters are the same. *)
Lemma legacy_default_params (model_id : float) (prompt : string) :
  let old :=
    Legacy.FusionBrain.generate_params (Prompt.makeDefault model_id prompt) in
  let new := generate_params prompt None in
  GenerateParams.width old = 1024%float
  ∧ GenerateParams.height old = 1024%float
  ∧ GenerateParams.width new = 768%float
  ∧ GenerateParams.height new = 768%float
  ∧ GenerateParams.type old = GenerateParams.type new
  ∧ GenerateParams.style old = GenerateParams.style new
  ∧ GenerateParams.numImages old = GenerateParams.numImages new
  ∧ GenerateParams.negativePromptUnclip old
    = GenerateParams.negativePromptUnclip new
  ∧ GenerateParams.query old = GenerateParams.query new.
Proof. repeat apply conj; reflexivity. Qed.

End LegacyClient.

(** ** Instances at sample replies *)

Lemma Task_create_optional_fields_witness :
  (∀ s, Some "out of memory" = Some s
        ↔ reply_failed !! "errorDescription" = Some (JString s))
  ∧ (∀ b, @None bool = Some b
          ↔ reply_failed !! "censored" = Some (JBool b))
  ∧ (∀ n, @None float = Some n
          ↔ reply_failed !! "generationTime" = Some (JNumber n)).
Proof.
  exact (Task_create_optional_fields reply_failed
           {| Task.uuid := "c0ffee"; Task.status := "FAIL";
              Task.images := None;
              Task.errorDescription := Some "out of memory";
              Task.censored := None;
              Task.generationTime := None |} eq_refl).
Defined.

Lemma validated_task_predicates_witness :
  Task.isSuccess
    {| Task.uuid := "c0ffee"; Task.status := "DONE";
       Task.images := Some [JString "aGVsbG8="; JNumber 7%float; JNull];
       Task.errorDescription := None;
       Task.censored := Some false;
       Task.generationTime := None |} = true
  ↔ get K_status (JObject reply_mixed_images) = Some (JString "DONE")
    ∧ get K_censored (JObject reply_mixed_images) ≠ Some (JBool true)
    ∧ ∃ first rest,
        get K_images (JObject reply_mixed_images)
        = Some (JArray (JString first :: rest)).
Proof.
  exact (proj1 (validated_task_predicates (JObject reply_mixed_images)
           {| Task.uuid := "c0ffee"; Task.status := "DONE";
              Task.images := Some [JString "aGVsbG8="; JNumber 7%float; JNull];
              Task.errorDescription := None;
              Task.censored := Some false;
              Task.generationTime := None |} eq_refl)).
Defined.
